(** * ctparse: grounding rules, join rules and the naive Bayes scorer

    A shallow embedding of [ctparse/time/rules.py] and [ctparse/nb_scorer.py].

    Python integers are [Z]; a Python function that may raise is a
    computation in the error monad [res]; a builder that may return [None]
    returns an [option].  The reference timestamp is a [datetime] record,
    with the proleptic Gregorian arithmetic of Python's [datetime] module
    (ordinals, [replace], adding whole days) and the addition of a
    [dateutil.relativedelta] written out.  The scorer is stated over an
    interface of the floating-point operations it uses; the real numbers
    are one instance of it. *)

From Stdlib Require Import ZArith List Bool Lia.
From Stdlib Require Import Strings.String Strings.Ascii.
From Stdlib Require Import Reals.
Import ListNotations.
Local Open Scope Z_scope.

(** ** Exceptions and the error monad *)

Inductive exn : Type :=
| TypeError
| ValueError
| OverflowError
| KeyError
| IndexError
| ZeroDivisionError
| IllegalMonthError
| AssertionError.

Inductive res (A : Type) : Type :=
| Ret (a : A)
| Raise (e : exn).

Arguments Ret {A} a.
Arguments Raise {A} e.

Definition bind {A B : Type} (c : res A) (k : A -> res B) : res B :=
  match c with
  | Ret a => k a
  | Raise e => Raise e
  end.

Notation "x <- c ;; k" := (bind c (fun x => k))
  (at level 61, c at next level, right associativity).

Notation "' p <- c ;; k" := (bind c (fun x => let p := x in k))
  (at level 61, p pattern, c at next level, right associativity).

(** [a or b] on an optional integer: [None] and [0] are both falsy. *)
Definition py_or (a : option Z) (b : Z) : Z :=
  match a with
  | Some v => if v =? 0 then b else v
  | None => b
  end.

(** ** The proleptic Gregorian calendar of [datetime] *)

Module Calendar.

Definition MINYEAR : Z := 1.
Definition MAXYEAR : Z := 9999.
Definition MAXORDINAL : Z := 3652059.

Definition is_leap (year : Z) : bool :=
  (year mod 4 =? 0) && (negb (year mod 100 =? 0) || (year mod 400 =? 0)).

(** [_DAYS_IN_MONTH], indexed from 1. *)
Definition DAYS_IN_MONTH (month : Z) : Z :=
  match month with
  | 1 => 31 | 2 => 28 | 3 => 31 | 4 => 30 | 5 => 31 | 6 => 30
  | 7 => 31 | 8 => 31 | 9 => 30 | 10 => 31 | 11 => 30 | 12 => 31
  | _ => -1
  end.

(** [_DAYS_BEFORE_MONTH], indexed from 1. *)
Definition DAYS_BEFORE_MONTH (month : Z) : Z :=
  match month with
  | 1 => 0 | 2 => 31 | 3 => 59 | 4 => 90 | 5 => 120 | 6 => 151
  | 7 => 181 | 8 => 212 | 9 => 243 | 10 => 273 | 11 => 304 | 12 => 334
  | _ => -1
  end.

Definition b2z (b : bool) : Z := if b then 1 else 0.

Definition days_in_month (year month : Z) : Z :=
  if (month =? 2) && is_leap year then 29 else DAYS_IN_MONTH month.

Definition days_before_year (year : Z) : Z :=
  let y := year - 1 in
  y * 365 + y / 4 - y / 100 + y / 400.

Definition days_before_month (year month : Z) : Z :=
  DAYS_BEFORE_MONTH month + b2z ((month >? 2) && is_leap year).

Definition ymd2ord (year month day : Z) : Z :=
  days_before_year year + days_before_month year month + day.

Definition DI400Y : Z := 146097.
Definition DI100Y : Z := 36524.
Definition DI4Y : Z := 1461.

(** The month and day of the [n]-th day (from 0) of a year. *)
Definition month_day (leapyear : bool) (n : Z) : Z * Z :=
  let month := Z.shiftr (n + 50) 5 in
  let preceding := DAYS_BEFORE_MONTH month + b2z ((month >? 2) && leapyear) in
  if preceding >? n then
    let month' := month - 1 in
    let preceding' :=
      preceding - (DAYS_IN_MONTH month' + b2z ((month' =? 2) && leapyear)) in
    (month', n - preceding' + 1)
  else (month, n - preceding + 1).

Definition ord2ymd (ordinal : Z) : Z * Z * Z :=
  let n := ordinal - 1 in
  let n400 := n / DI400Y in
  let n := n mod DI400Y in
  let year := n400 * 400 + 1 in
  let n100 := n / DI100Y in
  let n := n mod DI100Y in
  let n4 := n / DI4Y in
  let n := n mod DI4Y in
  let n1 := n / 365 in
  let n := n mod 365 in
  let year := year + n100 * 100 + n4 * 4 + n1 in
  if (n1 =? 4) || (n100 =? 4) then (year - 1, 12, 31)
  else
    let leapyear := (n1 =? 3) && (negb (n4 =? 24) || (n100 =? 3)) in
    let '(month, day) := month_day leapyear n in
    (year, month, day).

(** [date.weekday()]: Monday is 0. *)
Definition weekday_of_ord (ordinal : Z) : Z := (ordinal + 6) mod 7.

Definition valid_date (year month day : Z) : bool :=
  (MINYEAR <=? year) && (year <=? MAXYEAR) &&
  (1 <=? month) && (month <=? 12) &&
  (1 <=? day) && (day <=? days_in_month year month).

End Calendar.


(** ** [datetime.datetime] *)

Record datetime : Type := mkdatetime {
  dt_year : Z;
  dt_month : Z;
  dt_day : Z;
  dt_hour : Z;
  dt_minute : Z;
  dt_second : Z;
  dt_microsecond : Z
}.

(** The field checks of the [datetime] constructor. *)
Definition valid_datetime (t : datetime) : bool :=
  Calendar.valid_date (dt_year t) (dt_month t) (dt_day t) &&
  (0 <=? dt_hour t) && (dt_hour t <=? 23) &&
  (0 <=? dt_minute t) && (dt_minute t <=? 59) &&
  (0 <=? dt_second t) && (dt_second t <=? 59) &&
  (0 <=? dt_microsecond t) && (dt_microsecond t <=? 999999).

Definition toordinal (t : datetime) : Z :=
  Calendar.ymd2ord (dt_year t) (dt_month t) (dt_day t).

Definition weekday (t : datetime) : Z :=
  Calendar.weekday_of_ord (toordinal t).

Definition default (o : option Z) (d : Z) : Z :=
  match o with
  | Some v => v
  | None => d
  end.

(** [t.replace(year=, month=, day=, hour=, minute=)]; the last two are
    passed only when they are not [None].  The new value goes through the
    constructor's checks. *)
Definition replace (t : datetime) (year month day : Z)
    (hour minute : option Z) : res datetime :=
  let t' := {| dt_year := year; dt_month := month; dt_day := day;
               dt_hour := default hour (dt_hour t);
               dt_minute := default minute (dt_minute t);
               dt_second := dt_second t;
               dt_microsecond := dt_microsecond t |} in
  if valid_datetime t' then Ret t' else Raise ValueError.

(** [t + timedelta(days=n)]: through the ordinal, the time of day kept. *)
Definition add_days (t : datetime) (n : Z) : res datetime :=
  let o := toordinal t + n in
  if (0 <? o) && (o <=? Calendar.MAXORDINAL) then
    let '(y, m, d) := Calendar.ord2ymd o in
    Ret {| dt_year := y; dt_month := m; dt_day := d;
           dt_hour := dt_hour t; dt_minute := dt_minute t;
           dt_second := dt_second t;
           dt_microsecond := dt_microsecond t |}
  else Raise OverflowError.

(** Comparison of two tuples of integers, as [datetime] compares. *)
Fixpoint lex_le (a b : list Z) : bool :=
  match a, b with
  | x :: a', y :: b' => (x <? y) || ((x =? y) && lex_le a' b')
  | _, _ => true
  end.

Definition dt_key (t : datetime) : list Z :=
  [dt_year t; dt_month t; dt_day t; dt_hour t; dt_minute t;
   dt_second t; dt_microsecond t].

(** [a <= b] *)
Definition dt_le (a b : datetime) : bool := lex_le (dt_key a) (dt_key b).

(** [a.date() == b.date()] *)
Definition same_date (a b : datetime) : bool :=
  (dt_year a =? dt_year b) && (dt_month a =? dt_month b) &&
  (dt_day a =? dt_day b).

(** ** [dateutil.relativedelta]

    The relative fields [years], [months], [days] ([weeks] counts as seven
    days), the absolute fields [year], [month], [day], [hour], [minute] and
    the weekday, which the rules always give without an occurrence number.
    The rules never use the relative hours, minutes or seconds. *)

Record relativedelta : Type := mkrelativedelta {
  rd_years : Z;
  rd_months : Z;
  rd_days : Z;
  rd_year : option Z;
  rd_month : option Z;
  rd_day : option Z;
  rd_hour : option Z;
  rd_minute : option Z;
  rd_weekday : option Z
}.

Definition rd_empty : relativedelta :=
  mkrelativedelta 0 0 0 None None None None None None.

(** [weekdays[i]] on the tuple [(MO, TU, WE, TH, FR, SA, SU)]; a weekday
    object is identified with its number. *)
Definition weekdays_getitem (i : Z) : res Z :=
  if (0 <=? i) && (i <? 7) then Ret i
  else if (-7 <=? i) && (i <? 0) then Ret (i + 7)
  else Raise IndexError.

(** The constructor turns an integer [weekday] into a weekday object. *)
Definition rd_of_weekday (w : option Z) : res (option Z) :=
  match w with
  | None => Ret None
  | Some i => wd <- weekdays_getitem i ;; Ret (Some wd)
  end.

(** [calendar.monthrange(year, month)[1]] *)
Definition monthrange (year month : Z) : res Z :=
  if (1 <=? month) && (month <=? 12) then
    Ret (Calendar.days_in_month year month)
  else Raise IllegalMonthError.

(** [other + rd], that is [relativedelta.__radd__]. *)
Definition radd (other : datetime) (rd : relativedelta) : res datetime :=
  let year := py_or (rd_year rd) (dt_year other) + rd_years rd in
  let month := py_or (rd_month rd) (dt_month other) in
  '(year, month) <-
    (if rd_months rd =? 0 then Ret (year, month)
     else if (1 <=? Z.abs (rd_months rd)) && (Z.abs (rd_months rd) <=? 12)
     then
       let month := month + rd_months rd in
       if month >? 12 then Ret (year + 1, month - 12)
       else if month <? 1 then Ret (year - 1, month + 12)
       else Ret (year, month)
     else Raise AssertionError) ;;
  dim <- monthrange year month ;;
  let day := Z.min dim (py_or (rd_day rd) (dt_day other)) in
  r <- replace other year month day (rd_hour rd) (rd_minute rd) ;;
  ret <- add_days r (rd_days rd) ;;
  match rd_weekday rd with
  | None => Ret ret
  | Some wd =>
      let jumpdays := (7 - weekday ret + wd) mod 7 in
      add_days ret jumpdays
  end.

(** ** Entities: [Time] and [Interval] *)

Record Time : Type := mkTime {
  year : option Z;
  month : option Z;
  day : option Z;
  hour : option Z;
  minute : option Z;
  DOW : option Z;
  POD : option string
}.

Record Interval : Type := mkInterval {
  t_from : option Time;
  t_to : option Time
}.

(** [Time(year=y, month=m, day=d)] *)
Definition Time_date (y m d : Z) : Time :=
  mkTime (Some y) (Some m) (Some d) None None None None.

(** [Time(hour=h, minute=mi)] *)
Definition Time_tod (h : option Z) (mi : option Z) : Time :=
  mkTime None None None h mi None None.

Definition pick {A : Type} (excluded : bool) (a b : option A) : option A :=
  if excluded then a
  else match a with
       | Some _ => a
       | None => b
       end.

(** Modelled from the spec: [Time.intersect] of [ctparse/types.py], which
    is not among the sources.  Each field takes whichever side has it set,
    [a] first; the field named by [exclude] is always taken from [a]. *)
Definition intersect (a b : Time) (exclude : string) : Time :=
  {| year := pick (String.eqb exclude "year") (year a) (year b);
     month := pick (String.eqb exclude "month") (month a) (month b);
     day := pick (String.eqb exclude "day") (day a) (day b);
     hour := pick (String.eqb exclude "hour") (hour a) (hour b);
     minute := pick (String.eqb exclude "minute") (minute a) (minute b);
     DOW := pick (String.eqb exclude "DOW") (DOW a) (DOW b);
     POD := pick (String.eqb exclude "POD") (POD a) (POD b) |}.

(** ** Comparisons and string tests on optional attributes

    An attribute that is [None] compares equal only to [None]; ordering it
    against anything raises [TypeError], and so does [in] on it. *)

Definition py_eq (a b : option Z) : bool :=
  match a, b with
  | Some x, Some y => x =? y
  | None, None => true
  | _, _ => false
  end.

Definition py_gt (a b : option Z) : res bool :=
  match a, b with
  | Some x, Some y => Ret (x >? y)
  | _, _ => Raise TypeError
  end.

Definition py_ge (a b : option Z) : res bool :=
  match a, b with
  | Some x, Some y => Ret (x >=? y)
  | _, _ => Raise TypeError
  end.

Definition py_le (a b : option Z) : res bool :=
  match a, b with
  | Some x, Some y => Ret (x <=? y)
  | _, _ => Raise TypeError
  end.

(** [a is not None] *)
Definition is_set {A : Type} (a : option A) : bool :=
  match a with
  | Some _ => true
  | None => false
  end.

(** [p and q], [p or q] where the right operand is evaluated on demand. *)
Definition and_then (p : res bool) (q : res bool) : res bool :=
  b <- p ;; if b then q else Ret false.

Definition or_else (p : res bool) (q : res bool) : res bool :=
  b <- p ;; if b then Ret true else q.

(** [needle in hay] on strings: [needle] occurs in [hay]. *)
Fixpoint contains (needle hay : string) : bool :=
  String.prefix needle hay ||
  match hay with
  | EmptyString => false
  | String _ hay' => contains needle hay'
  end.

Definition py_in (needle : string) (hay : option string) : res bool :=
  match hay with
  | Some s => Ret (contains needle s)
  | None => Raise TypeError
  end.

(** [int(s)] on the strings of the digits 0 to 9.  Python's [int] also
    reads the decimal digits of other scripts; such strings are outside
    this model, which raises on them, and the statements below are about
    strings of the digits 0 to 9. *)
Definition digit_of (c : ascii) : option Z :=
  let n := Z.of_nat (nat_of_ascii c) in
  if (48 <=? n) && (n <=? 57) then Some (n - 48) else None.

Fixpoint int_digits (acc : Z) (s : string) : option Z :=
  match s with
  | EmptyString => Some acc
  | String c s' =>
      match digit_of c with
      | Some d => int_digits (10 * acc + d) s'
      | None => None
      end
  end.

Definition py_int (s : string) : res Z :=
  match s with
  | EmptyString => Raise ValueError
  | _ => match int_digits 0 s with
         | Some v => Ret v
         | None => Raise ValueError
         end
  end.

(** The named groups of a match of the [ruleHHMM] pattern: [hour] always
    takes part in the match, [minute] and [ampm] are optional. *)
Record HHMMMatch : Type := mkHHMMMatch {
  group_hour : string;
  group_minute : option string;
  group_ampm : option string
}.

(** ** The rules of [ctparse/time/rules.py] *)

Definition pod_hours : list (string * (Z * Z)) :=
  [ ("earlymorning", (0, 6));
    ("morning", (5, 8));
    ("latemorning", (8, 10));
    ("earlybeforenoon", (8, 11));
    ("beforenoon", (9, 12));
    ("latebeforenoon", (10, 13));
    ("earlynoon", (11, 13));
    ("noon", (12, 14));
    ("latenoon", (13, 15));
    ("earlyafternoon", (13, 15));
    ("afternoon", (14, 16));
    ("lateafternoon", (15, 17));
    ("earlyevening", (16, 18));
    ("evening", (17, 19));
    ("lateevening", (18, 20));
    ("earlynight", (18, 20));
    ("night", (19, 22));
    ("latenight", (20, 23)) ]%string.

Fixpoint dict_get {V : Type} (d : list (string * V)) (k : string)
    : option V :=
  match d with
  | [] => None
  | (k', v) :: d' => if String.eqb k k' then Some v else dict_get d' k
  end.

(** [pod_hours[key]]; a key that is absent, [None] included, raises. *)
Definition pod_hours_getitem (key : option string) : res (Z * Z) :=
  match key with
  | None => Raise KeyError
  | Some k => match dict_get pod_hours k with
              | Some v => Ret v
              | None => Raise KeyError
              end
  end.

(** [Time(year=dm.year, month=dm.month, day=dm.day)] *)
Definition Time_of_date (dm : datetime) : Time :=
  Time_date (dt_year dm) (dt_month dm) (dt_day dm).

Definition ruleAtDOW (ts : datetime) (dow : Time) : res (option Time) :=
  wd <- rd_of_weekday (DOW dow) ;;
  dm <- radd ts (mkrelativedelta 0 0 0 None None None None None wd) ;;
  dm <- (if same_date dm ts
         then radd dm (mkrelativedelta 0 0 7 None None None None None None)
         else Ret dm) ;;
  Ret (Some (intersect (Time_of_date dm) dow "DOW")).

Definition ruleNextDOW (ts : datetime) (dow : Time) : res (option Time) :=
  wd <- rd_of_weekday (DOW dow) ;;
  dm <- radd ts (mkrelativedelta 0 0 7 None None None None None wd) ;;
  Ret (Some (intersect (Time_of_date dm) dow "DOW")).

Definition ruleLatentDOM (ts : datetime) (dom : Time) : res (option Time) :=
  dm <- radd ts (mkrelativedelta 0 0 0 None None (day dom) None None None) ;;
  dm <- (if dt_le dm ts
         then radd dm (mkrelativedelta 0 1 0 None None None None None None)
         else Ret dm) ;;
  Ret (Some (Time_of_date dm)).

Definition ruleLatentDOW (ts : datetime) (dow : Time) : res (option Time) :=
  wd <- rd_of_weekday (DOW dow) ;;
  dm <- radd ts (mkrelativedelta 0 0 0 None None None None None wd) ;;
  dm <- (if dt_le dm ts
         then radd dm (mkrelativedelta 0 0 7 None None None None None None)
         else Ret dm) ;;
  Ret (Some (intersect (Time_of_date dm) dow "DOW")).

Definition ruleLatentDOY (ts : datetime) (doy : Time) : res (option Time) :=
  dm <- radd ts (mkrelativedelta 0 0 0 None (month doy) (day doy)
                                 None None None) ;;
  dm <- (if dt_le dm ts
         then radd dm (mkrelativedelta 1 0 0 None None None None None None)
         else Ret dm) ;;
  Ret (Some (Time_of_date dm)).

Definition ruleLatentTOD (ts : datetime) (tod : Time) : res (option Time) :=
  dm <- radd ts (mkrelativedelta 0 0 0 None None None (hour tod)
                                 (Some (py_or (minute tod) 0)) None) ;;
  dm <- (if dt_le dm ts
         then radd dm (mkrelativedelta 0 0 1 None None None None None None)
         else Ret dm) ;;
  Ret (Some (mkTime (Some (dt_year dm)) (Some (dt_month dm))
                    (Some (dt_day dm)) (Some (dt_hour dm))
                    (Some (dt_minute dm)) None None)).

Definition ruleLatentPOD (ts : datetime) (pod : Time) : res (option Time) :=
  '(h_from, h_to) <- pod_hours_getitem (POD pod) ;;
  t_from <- radd ts (mkrelativedelta 0 0 0 None None None (Some h_from)
                                     None None) ;;
  t_from <- (if dt_le t_from ts
             then radd t_from
                    (mkrelativedelta 0 0 1 None None None None None None)
             else Ret t_from) ;;
  Ret (Some (mkTime (Some (dt_year t_from)) (Some (dt_month t_from))
                    (Some (dt_day t_from)) None None None (POD pod))).

Definition ruleHHMM (ts : datetime) (m : HHMMMatch) : res (option Time) :=
  h <- py_int (group_hour m) ;;
  mi <- match group_minute m with
        | None => Ret 0
        | Some EmptyString => Ret 0
        | Some s => py_int s
        end ;;
  let t := Time_tod (Some h) (Some mi) in
  match group_ampm m with
  | None => Ret (Some t)
  | Some ampm =>
      if String.prefix "a" ampm && (h <=? 12) then Ret (Some t)
      else if String.prefix "p" ampm && (h <=? 12) then
        Ret (Some (Time_tod (Some (h + 12)) (Some mi)))
      else Ret (Some t)
  end.

Definition ruleHHOClock (ts : datetime) (group_hour : string)
    : res (option Time) :=
  h <- py_int group_hour ;;
  Ret (Some (Time_tod (Some h) None)).

Definition ruleTODPOD (ts : datetime) (tod pod : Time) : res (option Time) :=
  c1 <- and_then (py_le (hour tod) (Some 12))
          (or_else (py_in "afternoon" (POD pod))
             (or_else (py_in "evening" (POD pod))
                (py_in "night" (POD pod)))) ;;
  if c1 then
    h <- match hour tod with
         | Some h => Ret (h + 12)
         | None => Raise TypeError
         end ;;
    Ret (Some (Time_tod (Some h) (minute tod)))
  else
    c2 <- and_then (py_gt (hour tod) (Some 12))
            (or_else (py_in "beforenoon" (POD pod))
               (py_in "morning" (POD pod))) ;;
    if c2 then Ret None
    else Ret (Some (Time_tod (hour tod) (minute tod))).

Definition rulePODTOD (ts : datetime) (pod tod : Time) : res (option Time) :=
  ruleTODPOD ts tod pod.

Definition ruleDateDate (ts : datetime) (d1 d2 : Time)
    : res (option Interval) :=
  c <- py_gt (year d1) (year d2) ;;
  if c then Ret None else
  c <- and_then (Ret (py_eq (year d1) (year d2)))
         (py_gt (month d1) (month d2)) ;;
  if c then Ret None else
  c <- and_then (Ret (py_eq (year d1) (year d2) &&
                      py_eq (month d1) (month d2)))
         (py_ge (day d1) (day d2)) ;;
  if c then Ret None else
  Ret (Some (mkInterval (Some d1) (Some d2))).

Definition ruleDateTimeDateTime (ts : datetime) (d1 d2 : Time)
    : res (option Interval) :=
  c <- py_gt (year d1) (year d2) ;;
  if c then Ret None else
  c <- and_then (Ret (py_eq (year d1) (year d2)))
         (py_gt (month d1) (month d2)) ;;
  if c then Ret None else
  c <- and_then (Ret (py_eq (year d1) (year d2) &&
                      py_eq (month d1) (month d2)))
         (py_gt (day d1) (day d2)) ;;
  if c then Ret None else
  c <- and_then (Ret (py_eq (year d1) (year d2) &&
                      py_eq (month d1) (month d2) &&
                      py_eq (day d1) (day d2)))
         (py_gt (hour d1) (hour d2)) ;;
  if c then Ret None else
  c <- and_then (Ret (py_eq (year d1) (year d2) &&
                      py_eq (month d1) (month d2) &&
                      py_eq (day d1) (day d2) &&
                      py_eq (hour d1) (hour d2)))
         (py_ge (minute d1) (minute d2)) ;;
  if c then Ret None else
  Ret (Some (mkInterval (Some d1) (Some d2))).

Definition ruleTODTOD (ts : datetime) (t1 t2 : Time)
    : res (option Interval) :=
  c <- py_gt (hour t1) (hour t2) ;;
  if c then Ret None else
  if py_eq (hour t1) (hour t2) then
    c <- and_then (Ret (is_set (minute t1) && is_set (minute t2)))
           (py_ge (minute t1) (minute t2)) ;;
    if c then Ret None else
    if negb (is_set (minute t1)) && is_set (minute t2) then Ret None else
    if negb (is_set (minute t1)) && negb (is_set (minute t2)) then Ret None
    else Ret (Some (mkInterval (Some t1) (Some t2)))
  else Ret (Some (mkInterval (Some t1) (Some t2))).

(** ** The scorer of [ctparse/nb_scorer.py]

    Python's [float] and the operations the scorer uses on it are an
    interface: [truediv a b] is [a / b] on two integers ([b] not zero),
    [flog_dom x] tells whether [math.log x] is defined (it raises
    [ValueError] otherwise) and [flog x] is its value. *)

Class PyFloat (F : Type) : Type := {
  fadd : F -> F -> F;
  fsub : F -> F -> F;
  truediv : Z -> Z -> F;
  flog_dom : F -> bool;
  flog : F -> F;
  fle : F -> F -> Prop
}.

(** What the order of the floats is assumed to satisfy when scores are
    compared: the quotient of positive integers is positive and grows with
    the numerator, the logarithm and the addition of a fixed term are
    monotone. *)
Class PyFloatOrder (F : Type) `{PyFloat F} : Prop := {
  truediv_pos : forall a b, 0 < a -> 0 < b -> flog_dom (truediv a b) = true;
  truediv_mono : forall a a' b,
    0 < a -> a <= a' -> 0 < b -> fle (truediv a b) (truediv a' b);
  flog_mono : forall x y,
    flog_dom x = true -> fle x y -> fle (flog x) (flog y);
  fadd_mono : forall m x y, fle x y -> fle (fadd m x) (fadd m y)
}.

(** A production: the span [mstart, mend) of the text it matched. *)
Record Production : Type := mkProduction {
  mstart : Z;
  mend : Z
}.

Section Scorer.

Context {F : Type} `{PyFloat F}.

(** The rule identifiers of a partial parse and their [str]. *)
Variable RuleId : Type.
Variable str : RuleId -> string.

Record PartialParse : Type := mkPartialParse {
  prod : list Production;
  rules : list RuleId
}.

(** [self._model.predict_log_proba([X])]: the row of the two class
    log-probabilities, class [-1] first. *)
Variable predict_log_proba : list string -> F * F.

(** [len(txt)] *)
Definition len (txt : string) : Z := Z.of_nat (String.length txt).

(** [l[0]] and [l[-1]] *)
Definition getitem_first {A : Type} (l : list A) : res A :=
  match l with
  | [] => Raise IndexError
  | x :: _ => Ret x
  end.

Definition getitem_last {A : Type} (l : list A) : res A :=
  match rev l with
  | [] => Raise IndexError
  | x :: _ => Ret x
  end.

(** [a / b] on integers *)
Definition py_truediv (a b : Z) : res F :=
  if b =? 0 then Raise ZeroDivisionError else Ret (truediv a b).

Definition math_log (x : F) : res F :=
  if flog_dom x then Ret (flog x) else Raise ValueError.

Definition _feature_extractor (txt : string) (ts : datetime)
    (partial_parse : PartialParse) : list string :=
  map str (rules partial_parse).

Definition score (txt : string) (ts : datetime)
    (partial_parse : PartialParse) : res F :=
  last <- getitem_last (prod partial_parse) ;;
  first <- getitem_first (prod partial_parse) ;;
  let max_covered_chars := mend last - mstart first in
  q <- py_truediv max_covered_chars (len txt) ;;
  len_score <- math_log q ;;
  let X := _feature_extractor txt ts partial_parse in
  let pred := predict_log_proba X in
  let model_score := fsub (snd pred) (fst pred) in
  Ret (fadd model_score len_score).

(** [len_prod] is [len(prod)] of the final production, a [Time] or an
    [Interval] whose [__len__] is not among the sources. *)
Definition score_final (txt : string) (ts : datetime)
    (partial_parse : PartialParse) (len_prod : Z) : res F :=
  q <- py_truediv len_prod (len txt) ;;
  len_score <- math_log q ;;
  let X := _feature_extractor txt ts partial_parse in
  let pred := predict_log_proba X in
  let model_score := fsub (snd pred) (fst pred) in
  Ret (fadd model_score len_score).

(** The model term: the log-odds of the two classes for a sequence of
    rule identifiers. *)
Definition model_log_odds (rs : list RuleId) : F :=
  let pred := predict_log_proba (map str rs) in
  fsub (snd pred) (fst pred).

End Scorer.

Arguments mkPartialParse {RuleId} prod rules.
Arguments prod {RuleId} p.
Arguments rules {RuleId} p.
Arguments _feature_extractor {RuleId} str txt ts partial_parse.
Arguments score {F _ RuleId} str predict_log_proba txt ts partial_parse.
Arguments score_final {F _ RuleId} str predict_log_proba txt ts
  partial_parse len_prod.
Arguments model_log_odds {F _ RuleId} str predict_log_proba rs.

(** The real numbers as floats without rounding. *)
Definition R_flog_dom (x : R) : bool :=
  if Rlt_dec 0 x then true else false.

#[global] Instance R_PyFloat : PyFloat R := {|
  fadd := Rplus;
  fsub := Rminus;
  truediv := fun a b => (IZR a / IZR b)%R;
  flog_dom := R_flog_dom;
  flog := ln;
  fle := Rle
|}.

(** ** Vocabulary of the statements *)

(** What [Calendar.month_day] must return for the [n]-th day of a year. *)
Definition month_day_ok (leap : bool) (n : Z) : bool :=
  let '(m, d) := Calendar.month_day leap n in
  (1 <=? m) && (m <=? 12) && (1 <=? d) &&
  (d <=? Calendar.DAYS_IN_MONTH m + Calendar.b2z ((m =? 2) && leap)) &&
  (Calendar.DAYS_BEFORE_MONTH m + Calendar.b2z ((m >? 2) && leap) + d
   =? n + 1).

(** [t] with another date, and with another hour and minute. *)
Definition with_date (t : datetime) (y m d : Z) : datetime :=
  {| dt_year := y; dt_month := m; dt_day := d;
     dt_hour := dt_hour t; dt_minute := dt_minute t;
     dt_second := dt_second t; dt_microsecond := dt_microsecond t |}.

Definition with_time (t : datetime) (h mi : Z) : datetime :=
  {| dt_year := dt_year t; dt_month := dt_month t; dt_day := dt_day t;
     dt_hour := h; dt_minute := mi;
     dt_second := dt_second t; dt_microsecond := dt_microsecond t |}.

Definition valid_time (h mi s us : Z) : Prop :=
  0 <= h <= 23 /\ 0 <= mi <= 59 /\ 0 <= s <= 59 /\ 0 <= us <= 999999.

(** The day after a date, and the month after a month. *)
Definition next_day (y m d : Z) : Z * Z * Z :=
  if d <? Calendar.days_in_month y m then (y, m, d + 1)
  else if m <? 12 then (y, m + 1, 1)
  else (y + 1, 1, 1).

Definition next_month (y m : Z) : Z * Z :=
  if m <? 12 then (y, m + 1) else (y + 1, 1).

(** One month, one year and one day later; a day of the month that the
    target month does not have becomes its last day. *)
Definition roll_month (dm : datetime) : datetime :=
  let '(y, m) := next_month (dt_year dm) (dt_month dm) in
  with_date dm y m (Z.min (Calendar.days_in_month y m) (dt_day dm)).

Definition roll_year (dm : datetime) : datetime :=
  with_date dm (dt_year dm + 1) (dt_month dm)
    (Z.min (Calendar.days_in_month (dt_year dm + 1) (dt_month dm))
       (dt_day dm)).

Definition roll_day (dm : datetime) : datetime :=
  let '(y, m, d) := next_day (dt_year dm) (dt_month dm) (dt_day dm) in
  with_date dm y m d.

(** [Time(year, month, day, hour, minute)] and
    [Time(year, month, day, POD=pod)] of a datetime. *)
Definition Time_of_datetime (dm : datetime) : Time :=
  mkTime (Some (dt_year dm)) (Some (dt_month dm)) (Some (dt_day dm))
         (Some (dt_hour dm)) (Some (dt_minute dm)) None None.

Definition Time_of_date_pod (pod : option string) (dm : datetime) : Time :=
  mkTime (Some (dt_year dm)) (Some (dt_month dm)) (Some (dt_day dm))
         None None None pod.

(** A grounding rule whose naive next occurrence is [naive]: the result
    holds the fields of [naive], rolled forward when [naive <= ts]; an
    occurrence equal to [ts] is rolled. *)
Definition grounded_by_roll (ts naive : datetime)
    (roll : datetime -> datetime) (fields : datetime -> Time)
    (result : res (option Time)) : Prop :=
  result = Ret (Some (fields (if dt_le naive ts then roll naive else naive)))
  /\ (naive = ts -> result = Ret (Some (fields (roll ts)))).

(** [Time(DOW=w)] and [Time(POD=p)] *)
Definition Time_dow (w : Z) : Time :=
  mkTime None None None None None (Some w) None.

Definition Time_pod (p : string) : Time :=
  mkTime None None None None None None (Some p).

(** A reference instant on 2022-03-10. *)
Definition march_10_2022 (h mi s us : Z) : datetime :=
  mkdatetime 2022 3 10 h mi s us.

Definition ts0 : datetime := march_10_2022 0 0 0 0.

(** A nonempty string of decimal digits. *)
Definition all_digits (s : string) : bool :=
  match s with
  | EmptyString => false
  | _ => match int_digits 0 s with
         | Some _ => true
         | None => false
         end
  end.

Definition minute_group_ok (g : option string) : Prop :=
  match g with
  | None => True
  | Some s => s = EmptyString \/ all_digits s = true
  end.

(** The part-of-day tags that [ruleTODPOD] reads as after noon and as
    before noon. *)
Definition after_noon_tag (p : string) : bool :=
  contains "afternoon" p || contains "evening" p || contains "night" p.

Definition before_noon_tag (p : string) : bool :=
  contains "beforenoon" p || contains "morning" p.

(** The matches of "5", "6pm" and "13:30am", and the derivation that
    joins two [ruleHHMM] productions with [ruleTODTOD]. *)
Definition match_5 : HHMMMatch := mkHHMMMatch "5" None None.
Definition match_6pm : HHMMMatch := mkHHMMMatch "6" None (Some "pm"%string).
Definition match_1330am : HHMMMatch :=
  mkHHMMMatch "13" (Some "30"%string) (Some "am"%string).

(** The match of "6 uhr pm": the blank after "uhr" belongs to the group
    [ampm], whose pattern begins with white space.  And the match of
    "6PM", a marker in capitals. *)
Definition match_6_uhr_pm : HHMMMatch :=
  mkHHMMMatch "6" None (Some " pm"%string).
Definition match_6PM : HHMMMatch :=
  mkHHMMMatch "6" None (Some "PM"%string).

(** [int(m.match.group('minute') or 0)], the minute that [ruleHHMM]
    reads. *)
Definition minute_read (g : option string) : res Z :=
  match g with
  | None => Ret 0
  | Some EmptyString => Ret 0
  | Some s => py_int s
  end.

Definition join_HHMM (ts : datetime) (m1 m2 : HHMMMatch)
    : res (option Interval) :=
  r1 <- ruleHHMM ts m1 ;;
  r2 <- ruleHHMM ts m2 ;;
  match r1, r2 with
  | Some t1, Some t2 => ruleTODTOD ts t1 t2
  | _, _ => Ret None
  end.

(** Strict order of two tuples of integers. *)
Fixpoint lex_lt (a b : list Z) : bool :=
  match a, b with
  | x :: a', y :: b' => (x <? y) || ((x =? y) && lex_lt a' b')
  | _, _ => false
  end.

(** Minutes since midnight of a time of day, a bare hour being the full
    hour. *)
Definition tod_minutes (t : Time) : Z :=
  60 * default (hour t) 0 + default (minute t) 0.

Definition half_past_six : Time := Time_tod (Some 6) (Some 30).
Definition six : Time := Time_tod (Some 6) None.

(** A text, two partial parses with the same rules and a constant model. *)
Definition example_txt : string := "on Monday at 5".
Definition example_model (X : list string) : R * R := (0%R, 0%R).
Definition example_pp1 : PartialParse string :=
  mkPartialParse [mkProduction 3 9] ["ruleDOW"%string].
Definition example_pp2 : PartialParse string :=
  mkPartialParse [mkProduction 0 9] ["ruleDOW"%string].

(** ** Further rules of [ctparse/time/rules.py] *)

(** [str.lower] and [str.strip] act on Unicode text; the rules below take
    them as given.  A string is the sequence of the bytes of its UTF-8
    form, on which [startswith], [in] and [==] agree with Python's. *)
Section PartOfDay.

Variable lower : string -> string.
Variable strip : string -> string.

(** The tag that the chain of tests gives to a lowered, stripped [pod]. *)
Definition pod_tag (pod : string) : string :=
  if String.prefix "mor" pod || contains "früh" pod
     || String.prefix "early" pod then "morning"
  else if String.prefix "after" pod || String.prefix "nach" pod
  then "afternoon"
  else if String.prefix "vor" pod then "beforenoon"
  else if String.eqb pod "noon" || String.eqb pod "evening"
          || String.eqb pod "night" then pod
  else if String.prefix "mittag" pod then "noon"
  else if String.prefix "abend" pod || String.prefix "spät" pod
          || String.prefix "late" pod then "evening"
  else if String.prefix "nacht" pod then "night"
  else pod.

(** The modifier: [None] and the empty string are falsy. *)
Definition mod_tag (mod_ : option string) : string :=
  match mod_ with
  | None => ""
  | Some EmptyString => ""
  | Some s =>
      let s := lower (strip s) in
      if String.prefix "früh" s || String.eqb s "early" then "early"
      else if String.prefix "spät" s || String.eqb s "late" then "late"
      else s
  end.

Definition _podFromMatch (pod : string) (mod_ : option string) : string :=
  let pod := pod_tag (strip (lower pod)) in
  let mod_ := mod_tag mod_ in
  (mod_ ++ pod)%string.

(** [group_pod] is the group [pod] of the match, which may be absent. *)
Definition _buildWeekDay (day_num : Z) (group_pod : option string) : Time :=
  let pod := match group_pod with
             | None => None
             | Some EmptyString => None
             | Some s => Some (_podFromMatch s None)
             end in
  mkTime None None None None None (Some day_num) pod.

(** The groups [pod] and [mod] of the match. *)
Definition rulePOD (ts : datetime) (group_pod : string)
    (group_mod : option string) : res (option Time) :=
  let pod := _podFromMatch group_pod group_mod in
  Ret (Some (mkTime None None None None None None (Some pod))).

End PartOfDay.

(** The tests of the chain of [_podFromMatch], and of its modifier. *)
Definition pod_recognised (pod : string) : bool :=
  String.prefix "mor" pod || contains "früh" pod
  || String.prefix "early" pod || String.prefix "after" pod
  || String.prefix "nach" pod || String.prefix "vor" pod
  || String.eqb pod "noon" || String.eqb pod "evening"
  || String.eqb pod "night" || String.prefix "mittag" pod
  || String.prefix "abend" pod || String.prefix "spät" pod
  || String.prefix "late" pod || String.prefix "nacht" pod.

Definition mod_recognised (lower strip : string -> string)
    (mod_ : option string) : bool :=
  match mod_ with
  | None => true
  | Some EmptyString => true
  | Some s =>
      let s := lower (strip s) in
      String.prefix "früh" s || String.eqb s "early"
      || String.prefix "spät" s || String.eqb s "late"
  end.

Definition pod_tags : list string :=
  ["morning"; "afternoon"; "beforenoon"; "noon"; "evening"; "night"]%string.

Definition mod_tags : list string := [""; "early"; "late"]%string.

(** The groups of a match of the [ruleDDMMYYYY] pattern. *)
Record DDMMYYYYMatch : Type := mkDDMMYYYYMatch {
  group_day : string;
  group_month : string;
  group_year : string
}.

Definition ruleYear (ts : datetime) (group_year : string)
    : res (option Time) :=
  y <- py_int group_year ;;
  let y := if y <? 1900 then y + 2000 else y in
  Ret (Some (mkTime (Some y) None None None None None None)).

Definition ruleDDMMYYYY (ts : datetime) (m : DDMMYYYYMatch)
    : res (option Time) :=
  y <- py_int (group_year m) ;;
  let y := if y <? 2000 then y + 2000 else y in
  mo <- py_int (group_month m) ;;
  d <- py_int (group_day m) ;;
  Ret (Some (Time_date y mo d)).

Definition ruleToday (ts : datetime) : res (option Time) :=
  Ret (Some (Time_of_date ts)).

Definition ruleTomorrow (ts : datetime) : res (option Time) :=
  dm <- radd ts (mkrelativedelta 0 0 1 None None None None None None) ;;
  Ret (Some (Time_of_date dm)).

Definition ruleYesterday (ts : datetime) : res (option Time) :=
  dm <- radd ts (mkrelativedelta 0 0 (-1) None None None None None None) ;;
  Ret (Some (Time_of_date dm)).

Definition ruleEOM (ts : datetime) : res (option Time) :=
  dm <- radd ts (mkrelativedelta 0 1 (-1) None None (Some 1)
                                 None None None) ;;
  Ret (Some (Time_of_date dm)).

Definition ruleEOY (ts : datetime) : res (option Time) :=
  dm <- radd ts (mkrelativedelta 1 0 (-1) None (Some 1) (Some 1)
                                 None None None) ;;
  Ret (Some (Time_of_date dm)).

Definition ruleDateTOD (ts : datetime) (date tod : Time)
    : res (option Time) :=
  Ret (Some (mkTime (year date) (month date) (day date)
                    (hour tod) (minute tod) None None)).

(** The outcome of a rule that reads attributes of an endpoint of an
    interval: an endpoint that is [None] has none, and reading one raises
    [AttributeError]. *)
Inductive res_attr (A : Type) : Type :=
| Done (r : res A)
| RaiseAttributeError.

Arguments Done {A} r.
Arguments RaiseAttributeError {A}.

Definition ruleLatentTimeInterval (ts : datetime) (ti : Interval)
    : res_attr (option Interval) :=
  match t_from ti with
  | None => RaiseAttributeError
  | Some f =>
      match radd ts (mkrelativedelta 0 0 0 None None None (hour f)
                                     (Some (py_or (minute f) 0)) None) with
      | Raise e => Done (Raise e)
      | Ret dm_from =>
          match t_to ti with
          | None => RaiseAttributeError
          | Some t =>
              Done
                (dm_to <- radd ts (mkrelativedelta 0 0 0 None None None
                                     (hour t) (Some (py_or (minute t) 0))
                                     None) ;;
                 '(dm_from, dm_to) <-
                   (if dt_le dm_from ts then
                      a <- radd dm_from
                             (mkrelativedelta 0 0 1 None None None None
                                              None None) ;;
                      b <- radd dm_to
                             (mkrelativedelta 0 0 1 None None None None
                                              None None) ;;
                      Ret (a, b)
                    else Ret (dm_from, dm_to)) ;;
                 Ret (Some (mkInterval (Some (Time_of_datetime dm_from))
                                       (Some (Time_of_datetime dm_to)))))
          end
      end
  end.

(** ASCII text: [lower] on the letters A to Z and [strip] of the ASCII
    white space, as [str.lower] and [str.strip] act on such text. *)
Definition ascii_lower_char (c : ascii) : ascii :=
  let n := nat_of_ascii c in
  if (Nat.leb 65 n && Nat.leb n 90)%bool then ascii_of_nat (n + 32) else c.

Fixpoint ascii_lower (s : string) : string :=
  match s with
  | EmptyString => EmptyString
  | String c s' => String (ascii_lower_char c) (ascii_lower s')
  end.

Definition ascii_space (c : ascii) : bool :=
  let n := nat_of_ascii c in
  (Nat.leb 9 n && Nat.leb n 13) || (Nat.leb 28 n && Nat.leb n 32).

Fixpoint lstrip (s : string) : string :=
  match s with
  | EmptyString => EmptyString
  | String c s' => if ascii_space c then lstrip s' else s
  end.

Fixpoint string_rev (acc s : string) : string :=
  match s with
  | EmptyString => acc
  | String c s' => string_rev (String c acc) s'
  end.

Definition ascii_strip (s : string) : string :=
  string_rev EmptyString (lstrip (string_rev EmptyString (lstrip s))).

(** The law of the floats on the domain of the logarithm: the quotient of
    an integer that is not positive by a positive one is outside it. *)
Class PyFloatLogDomain (F : Type) `{PyFloat F} : Prop := {
  truediv_nonpos : forall a b,
    a <= 0 -> 0 < b -> flog_dom (truediv a b) = false
}.

(** The day before a date. *)
Definition prev_day (y m d : Z) : Z * Z * Z :=
  if 1 <? d then (y, m, d - 1)
  else if 1 <? m then (y, m - 1, Calendar.days_in_month y (m - 1))
  else (y - 1, 12, 31).

(** The key by which a date and a time to the minute are ordered. *)
Definition minute_key (t : Time) : list Z :=
  [default (year t) 0; default (month t) 0; default (day t) 0;
   default (hour t) 0; default (minute t) 0].

Definition dt_minute_key (t : datetime) : list Z :=
  [dt_year t; dt_month t; dt_day t; dt_hour t; dt_minute t].

(** The match of "12pm", with or without minutes and dots. *)
Definition noon_pm_match (group_minute : option string) (ampm : string)
    : HHMMMatch :=
  mkHHMMMatch "12" group_minute (Some ampm).

(** * Properties *)

(** ** The calendar: ordinals and dates *)

Module CalendarFacts.

Import Calendar.

Ltac month_tables :=
  cbv [DAYS_IN_MONTH DAYS_BEFORE_MONTH b2z andb Z.eqb Z.gtb Z.compare
       Pos.compare Pos.compare_cont Pos.eqb] in *.

(** Case analysis on a month number known to lie in 1..12. *)
Ltac month_cases m :=
  let Hc := fresh "Hc" in
  assert (Hc : m = 1 \/ m = 2 \/ m = 3 \/ m = 4 \/ m = 5 \/ m = 6 \/ m = 7 \/
               m = 8 \/ m = 9 \/ m = 10 \/ m = 11 \/ m = 12) by lia;
  repeat (destruct Hc as [->|Hc]); try subst m.

Example ord2ymd_march_10_2022 : ord2ymd 738224 = (2022, 3, 10).
Proof. reflexivity. Qed.

Example ymd2ord_march_10_2022 :
  ymd2ord 2022 3 10 = 738224 /\ weekday_of_ord 738224 = 3.
Proof. split; reflexivity. Qed.

Example ord2ymd_last_day : ord2ymd MAXORDINAL = (9999, 12, 31).
Proof. reflexivity. Qed.

Lemma month_day_table (leap : bool) :
  forallb (month_day_ok leap)
    (map Z.of_nat (seq 0 (if leap then 366 else 365))) = true.
Proof. destruct leap; vm_compute; reflexivity. Qed.

Lemma month_day_correct (leap : bool) (n : Z) :
  0 <= n < 365 + b2z leap -> month_day_ok leap n = true.
Proof.
  intros Hn.
  pose proof (month_day_table leap) as Ht.
  rewrite forallb_forall in Ht. apply Ht.
  replace n with (Z.of_nat (Z.to_nat n)) by lia.
  apply in_map, in_seq. destruct leap; simpl in *; lia.
Qed.

Lemma b2z_range (b : bool) : 0 <= b2z b <= 1.
Proof. destruct b; simpl; lia. Qed.

(** The year [400a + 100b + 4c + e + 1] starts after [a] cycles of 400
    years, [b] centuries, [c] cycles of four years and [e] years. *)
Lemma days_before_year_decomp (a b c e : Z) :
  0 <= b <= 3 -> 0 <= c <= 24 -> 0 <= e <= 3 ->
  days_before_year (a * 400 + 1 + b * 100 + c * 4 + e)
  = a * 146097 + b * 36524 + c * 1461 + e * 365.
Proof.
  intros Hb Hc He. unfold days_before_year.
  Z.div_mod_to_equations. lia.
Qed.

Lemma is_leap_decomp (a b c e : Z) :
  0 <= b <= 3 -> 0 <= c <= 24 -> 0 <= e <= 3 ->
  is_leap (a * 400 + 1 + b * 100 + c * 4 + e)
  = (e =? 3) && (negb (c =? 24) || (b =? 3)).
Proof.
  intros Hb Hc He. unfold is_leap.
  destruct (Z.eqb_spec e 3), (Z.eqb_spec c 24), (Z.eqb_spec b 3);
    repeat match goal with
           | |- context [?x mod ?k =? 0] => destruct (Z.eqb_spec (x mod k) 0)
           end;
    simpl; try reflexivity; exfalso; Z.div_mod_to_equations; lia.
Qed.

Lemma days_in_month_alt (y m : Z) :
  days_in_month y m = DAYS_IN_MONTH m + b2z ((m =? 2) && is_leap y).
Proof.
  unfold days_in_month.
  destruct (Z.eqb_spec m 2) as [->|]; simpl; [destruct (is_leap y)|];
    simpl; lia.
Qed.

Lemma days_in_month_bounds (y m : Z) :
  1 <= m <= 12 -> 28 <= days_in_month y m <= 31.
Proof.
  intros Hm. rewrite days_in_month_alt.
  destruct (is_leap y); month_cases m; month_tables; lia.
Qed.

(** [ord2ymd] returns a month and a day that exist, of the ordinal given. *)
Lemma ord2ymd_spec (n : Z) :
  let '(y, m, d) := ord2ymd n in
  ymd2ord y m d = n /\ 1 <= m <= 12 /\ 1 <= d <= days_in_month y m.
Proof.
  unfold ord2ymd, DI400Y, DI100Y, DI4Y.
  pose proof (Z.div_mod (n - 1) 146097 ltac:(lia)) as E1.
  pose proof (Z.mod_pos_bound (n - 1) 146097 ltac:(lia)) as B1.
  set (a := (n - 1) / 146097) in *. set (r1 := (n - 1) mod 146097) in *.
  pose proof (Z.div_mod r1 36524 ltac:(lia)) as E2.
  pose proof (Z.mod_pos_bound r1 36524 ltac:(lia)) as B2.
  set (b := r1 / 36524) in *. set (r2 := r1 mod 36524) in *.
  pose proof (Z.div_mod r2 1461 ltac:(lia)) as E3.
  pose proof (Z.mod_pos_bound r2 1461 ltac:(lia)) as B3.
  set (c := r2 / 1461) in *. set (r3 := r2 mod 1461) in *.
  pose proof (Z.div_mod r3 365 ltac:(lia)) as E4.
  pose proof (Z.mod_pos_bound r3 365 ltac:(lia)) as B4.
  set (e := r3 / 365) in *. set (r4 := r3 mod 365) in *.
  clearbody a r1 b r2 c r3 e r4.
  assert (Hb : 0 <= b <= 4) by lia.
  assert (Hc : 0 <= c <= 24) by lia.
  assert (He : 0 <= e <= 4) by lia.
  destruct (Z.eqb_spec e 4) as [He4|He4]; simpl.
  - (* the last day of a cycle of four years *)
    subst e. assert (r4 = 0) by lia. subst r4.
    replace (a * 400 + 1 + b * 100 + c * 4 + 4 - 1)
      with (a * 400 + 1 + b * 100 + c * 4 + 3) by lia.
    assert (b <= 3) by lia.
    unfold ymd2ord, days_before_month.
    rewrite days_in_month_alt, days_before_year_decomp, is_leap_decomp
      by lia.
    simpl. destruct (Z.eqb_spec c 24), (Z.eqb_spec b 3); simpl; lia.
  - destruct (Z.eqb_spec b 4) as [Hb4|Hb4]; simpl.
    + (* the last day of a cycle of 400 years *)
      subst b. assert (r2 = 0) by lia. subst r2.
      assert (c = 0) by lia. assert (e = 0) by lia. subst c e.
      replace (a * 400 + 1 + 4 * 100 + 0 * 4 + 0 - 1)
        with (a * 400 + 1 + 3 * 100 + 24 * 4 + 3) by lia.
      unfold ymd2ord, days_before_month.
      rewrite days_in_month_alt, days_before_year_decomp, is_leap_decomp
        by lia.
      simpl. lia.
    + assert (Hle : 0 <= r4 <
                    365 + b2z ((e =? 3) && (negb (c =? 24) || (b =? 3)))).
      { destruct (Z.eqb_spec e 3), (Z.eqb_spec c 24), (Z.eqb_spec b 3);
          simpl; lia. }
      pose proof (month_day_correct _ _ Hle) as Hmd.
      unfold month_day_ok in Hmd.
      destruct (month_day _ r4) as [m d].
      rewrite !andb_true_iff in Hmd.
      destruct Hmd as [[[[H1 H2] H3] H4] H5].
      unfold ymd2ord, days_before_month.
      rewrite days_in_month_alt, days_before_year_decomp, is_leap_decomp
        by lia.
      lia.
Qed.

Lemma days_before_year_succ (y : Z) :
  days_before_year (y + 1) = days_before_year y + 365 + b2z (is_leap y).
Proof.
  unfold days_before_year, is_leap.
  replace (y + 1 - 1) with y by lia.
  repeat match goal with
         | |- context [?x mod ?k =? 0] => destruct (Z.eqb_spec (x mod k) 0)
         end; simpl; Z.div_mod_to_equations; lia.
Qed.

Lemma days_before_year_mono (y y' : Z) :
  y <= y' -> days_before_year y <= days_before_year y'.
Proof.
  intros Hle. replace y' with (y + Z.of_nat (Z.to_nat (y' - y))) by lia.
  induction (Z.to_nat (y' - y)) as [|k IH].
  - rewrite Z.add_0_r. lia.
  - replace (y + Z.of_nat (S k)) with (y + Z.of_nat k + 1) by lia.
    rewrite days_before_year_succ.
    pose proof (b2z_range (is_leap (y + Z.of_nat k))). lia.
Qed.

Lemma days_before_year_next (y y' : Z) :
  y < y' ->
  days_before_year y + 365 + b2z (is_leap y) <= days_before_year y'.
Proof.
  intros Hlt. rewrite <- days_before_year_succ.
  apply days_before_year_mono. lia.
Qed.

Lemma day_of_year_range (y m d : Z) :
  1 <= m <= 12 -> 1 <= d <= days_in_month y m ->
  1 <= days_before_month y m + d <= 365 + b2z (is_leap y).
Proof.
  intros Hm Hd. rewrite days_in_month_alt in Hd. unfold days_before_month.
  destruct (is_leap y); month_cases m; month_tables; lia.
Qed.

Lemma days_before_month_mono (y m m' : Z) :
  1 <= m <= 12 -> 1 <= m' <= 12 -> m < m' ->
  days_before_month y m + days_in_month y m <= days_before_month y m'.
Proof.
  intros Hm Hm' Hlt. rewrite days_in_month_alt. unfold days_before_month.
  destruct (is_leap y); month_cases m; month_cases m'; month_tables; lia.
Qed.

Lemma day_of_year_inj (y m d m' d' : Z) :
  1 <= m <= 12 -> 1 <= d <= days_in_month y m ->
  1 <= m' <= 12 -> 1 <= d' <= days_in_month y m' ->
  days_before_month y m + d = days_before_month y m' + d' ->
  m = m' /\ d = d'.
Proof.
  intros Hm Hd Hm' Hd' Heq.
  destruct (Z.lt_trichotomy m m') as [Hlt|[<-|Hgt]].
  - pose proof (days_before_month_mono y m m' Hm Hm' Hlt). lia.
  - split; [reflexivity|lia].
  - pose proof (days_before_month_mono y m' m Hm' Hm ltac:(lia)). lia.
Qed.

(** Two dates with the same ordinal are the same date. *)
Lemma ymd2ord_inj (y m d y' m' d' : Z) :
  1 <= m <= 12 -> 1 <= d <= days_in_month y m ->
  1 <= m' <= 12 -> 1 <= d' <= days_in_month y' m' ->
  ymd2ord y m d = ymd2ord y' m' d' ->
  y = y' /\ m = m' /\ d = d'.
Proof.
  intros Hm Hd Hm' Hd' Heq. unfold ymd2ord in Heq.
  pose proof (day_of_year_range y m d Hm Hd) as R.
  pose proof (day_of_year_range y' m' d' Hm' Hd') as R'.
  assert (y = y') as <-.
  { destruct (Z.lt_trichotomy y y') as [Hlt|[Heq'|Hgt]]; [|assumption|].
    - pose proof (days_before_year_next y y' Hlt). lia.
    - pose proof (days_before_year_next y' y ltac:(lia)). lia. }
  split; [reflexivity|].
  apply (day_of_year_inj y); try assumption. lia.
Qed.

(** Round trip: the date of the ordinal of a date. *)
Lemma ord2ymd_ymd2ord (y m d : Z) :
  1 <= m <= 12 -> 1 <= d <= days_in_month y m ->
  ord2ymd (ymd2ord y m d) = (y, m, d).
Proof.
  intros Hm Hd.
  pose proof (ord2ymd_spec (ymd2ord y m d)) as Hs.
  destruct (ord2ymd (ymd2ord y m d)) as [[y' m'] d'].
  destruct Hs as (Heq & Hm' & Hd').
  apply ymd2ord_inj in Heq; try assumption.
  destruct Heq as (-> & -> & ->). reflexivity.
Qed.

Lemma valid_date_iff (y m d : Z) :
  valid_date y m d = true <->
  1 <= y <= 9999 /\ 1 <= m <= 12 /\ 1 <= d <= days_in_month y m.
Proof.
  unfold valid_date, MINYEAR, MAXYEAR.
  rewrite !andb_true_iff, !Z.leb_le. tauto.
Qed.

Lemma ymd2ord_range (y m d : Z) :
  valid_date y m d = true -> 1 <= ymd2ord y m d <= MAXORDINAL.
Proof.
  rewrite valid_date_iff. intros (Hy & Hm & Hd).
  pose proof (day_of_year_range y m d Hm Hd) as R.
  pose proof (days_before_year_mono 1 y ltac:(lia)) as L.
  pose proof (days_before_year_next y 10000 ltac:(lia)) as U.
  change (days_before_year 1) with 0 in L.
  change (days_before_year 10000) with 3652059 in U.
  unfold ymd2ord, MAXORDINAL. lia.
Qed.

(** Round trip: the ordinal of the date of an ordinal, which is a date of
    the years 1 to 9999. *)
Lemma ord2ymd_valid (n : Z) :
  1 <= n <= MAXORDINAL ->
  let '(y, m, d) := ord2ymd n in
  valid_date y m d = true /\ ymd2ord y m d = n.
Proof.
  intros Hn. pose proof (ord2ymd_spec n) as Hs.
  destruct (ord2ymd n) as [[y m] d]. destruct Hs as (Heq & Hm & Hd).
  split; [|assumption].
  rewrite valid_date_iff. repeat split; try lia.
  - destruct (Z_lt_le_dec y 1) as [Hlt|]; [|assumption].
    pose proof (days_before_year_next y 1 Hlt) as U.
    pose proof (day_of_year_range y m d Hm Hd) as R.
    change (days_before_year 1) with 0 in U. unfold ymd2ord in Heq. lia.
  - destruct (Z_lt_le_dec 9999 y) as [Hlt|]; [|assumption].
    pose proof (days_before_year_mono 10000 y ltac:(lia)) as L.
    pose proof (day_of_year_range y m d Hm Hd) as R.
    change (days_before_year 10000) with 3652059 in L.
    unfold ymd2ord, MAXORDINAL in *. lia.
Qed.

(** The ordinal grows with the date. *)
Lemma ymd2ord_lex (y m d y' m' d' : Z) :
  1 <= m <= 12 -> 1 <= d <= days_in_month y m ->
  1 <= m' <= 12 -> 1 <= d' <= days_in_month y' m' ->
  lex_le [y; m; d] [y'; m'; d'] = true ->
  ymd2ord y m d <= ymd2ord y' m' d'.
Proof.
  intros Hm Hd Hm' Hd'. unfold ymd2ord. simpl.
  pose proof (day_of_year_range _ _ _ Hm Hd) as R.
  pose proof (day_of_year_range _ _ _ Hm' Hd') as R'.
  destruct (Z.ltb_spec y y') as [Hy|Hy]; simpl.
  { intros _. pose proof (days_before_year_next _ _ Hy). lia. }
  destruct (Z.eqb_spec y y') as [<-|Ey]; simpl; [|discriminate].
  destruct (Z.ltb_spec m m') as [Hlt|Hge]; simpl.
  { intros _. pose proof (days_before_month_mono y _ _ Hm Hm' Hlt). lia. }
  destruct (Z.eqb_spec m m') as [<-|Em]; simpl; [|discriminate].
  destruct (Z.ltb_spec d d') as [Hdl|Hdg]; simpl; [intros _; lia|].
  destruct (Z.eqb_spec d d') as [<-|Ed]; simpl; [intros _; lia|discriminate].
Qed.

(** The ordinal of the next day. *)
Lemma next_day_spec (y m d : Z) :
  1 <= m <= 12 -> 1 <= d <= days_in_month y m ->
  let '(y', m', d') := next_day y m d in
  1 <= m' <= 12 /\ 1 <= d' <= days_in_month y' m' /\
  ymd2ord y' m' d' = ymd2ord y m d + 1.
Proof.
  intros Hm Hd. unfold next_day.
  destruct (Z.ltb_spec d (days_in_month y m)) as [Hlt|Hge].
  - unfold ymd2ord. repeat split; lia.
  - assert (d = days_in_month y m) as -> by lia.
    destruct (Z.ltb_spec m 12) as [Hm12|Hm12].
    + pose proof (days_in_month_bounds y (m + 1) ltac:(lia)).
      rewrite !days_in_month_alt. unfold ymd2ord, days_before_month.
      assert (Hc : m = 1 \/ m = 2 \/ m = 3 \/ m = 4 \/ m = 5 \/ m = 6 \/
                   m = 7 \/ m = 8 \/ m = 9 \/ m = 10 \/ m = 11) by lia.
      destruct (is_leap y);
        repeat (destruct Hc as [->|Hc]); try subst m;
        repeat match goal with
               | |- context [Z.pos ?p + 1] =>
                   let v := eval vm_compute in (Z.pos p + 1) in
                   change (Z.pos p + 1) with v
               end;
        month_tables; lia.
    + assert (m = 12) as -> by lia.
      unfold ymd2ord. rewrite days_before_year_succ.
      rewrite !days_in_month_alt. unfold days_before_month.
      destruct (is_leap y), (is_leap (y + 1)); month_tables; lia.
Qed.

Lemma weekday_of_ord_range (o : Z) : 0 <= weekday_of_ord o <= 6.
Proof.
  unfold weekday_of_ord. pose proof (Z.mod_pos_bound (o + 6) 7). lia.
Qed.

(** Moving on by [(7 - weekday + w) mod 7] days reaches the weekday [w]. *)
Lemma weekday_jump (o w : Z) :
  0 <= w <= 6 ->
  weekday_of_ord (o + (7 - weekday_of_ord o + w) mod 7) = w.
Proof.
  intros Hw. unfold weekday_of_ord. Z.div_mod_to_equations. lia.
Qed.

Lemma weekday_week (o : Z) : weekday_of_ord (o + 7) = weekday_of_ord o.
Proof. unfold weekday_of_ord. Z.div_mod_to_equations. lia. Qed.

Lemma jump_zero_iff (wt w : Z) :
  0 <= wt <= 6 -> 0 <= w <= 6 -> ((7 - wt + w) mod 7 = 0 <-> w = wt).
Proof. intros H1 H2. Z.div_mod_to_equations. lia. Qed.

Lemma jump_mod (wt w : Z) : (7 - wt + w) mod 7 = (w - wt) mod 7.
Proof. Z.div_mod_to_equations. lia. Qed.

End CalendarFacts.

(** ** [datetime]: validity, ordinals, adding days *)

Import Calendar CalendarFacts.

Lemma valid_datetime_iff (t : datetime) :
  valid_datetime t = true <->
  valid_date (dt_year t) (dt_month t) (dt_day t) = true /\
  valid_time (dt_hour t) (dt_minute t) (dt_second t) (dt_microsecond t).
Proof.
  unfold valid_datetime, valid_time.
  rewrite !andb_true_iff, !Z.leb_le. tauto.
Qed.

Lemma lex_le_refl (l : list Z) : lex_le l l = true.
Proof.
  induction l as [|x l IH]; simpl; [reflexivity|].
  now rewrite Z.eqb_refl, IH, orb_true_r.
Qed.

Lemma dt_le_refl (t : datetime) : dt_le t t = true.
Proof. apply lex_le_refl. Qed.

Lemma with_date_time_id (t : datetime) :
  with_time (with_date t (dt_year t) (dt_month t) (dt_day t))
    (dt_hour t) (dt_minute t) = t.
Proof. destruct t; reflexivity. Qed.

Lemma add_days_ord (t : datetime) (n y m d : Z) :
  1 <= toordinal t + n <= MAXORDINAL ->
  ord2ymd (toordinal t + n) = (y, m, d) ->
  add_days t n = Ret (with_date t y m d).
Proof.
  intros Hr He. unfold add_days. rewrite He.
  replace (0 <? toordinal t + n) with true by (symmetry; apply Z.ltb_lt; lia).
  replace (toordinal t + n <=? MAXORDINAL) with true
    by (symmetry; apply Z.leb_le; lia).
  reflexivity.
Qed.

Lemma add_days_overflow (t : datetime) (n : Z) :
  MAXORDINAL < toordinal t + n -> add_days t n = Raise OverflowError.
Proof.
  intros Hr. unfold add_days.
  replace (toordinal t + n <=? MAXORDINAL) with false
    by (symmetry; apply Z.leb_gt; lia).
  now rewrite andb_false_r.
Qed.

Lemma monthrange_ok (y m : Z) :
  1 <= m <= 12 -> monthrange y m = Ret (days_in_month y m).
Proof.
  intros Hm. unfold monthrange.
  replace (1 <=? m) with true by (symmetry; apply Z.leb_le; lia).
  replace (m <=? 12) with true by (symmetry; apply Z.leb_le; lia).
  reflexivity.
Qed.

Section ValidDatetime.

Variable t : datetime.
Hypothesis Hv : valid_datetime t = true.

Lemma valid_fields :
  1 <= dt_year t <= 9999 /\ 1 <= dt_month t <= 12 /\
  1 <= dt_day t <= days_in_month (dt_year t) (dt_month t) /\
  valid_time (dt_hour t) (dt_minute t) (dt_second t) (dt_microsecond t).
Proof.
  pose proof Hv as H. apply valid_datetime_iff in H. destruct H as [Hd Ht].
  apply valid_date_iff in Hd. tauto.
Qed.

Lemma toordinal_range : 1 <= toordinal t <= MAXORDINAL.
Proof.
  pose proof Hv as H. apply valid_datetime_iff in H. destruct H as [Hd _].
  now apply ymd2ord_range.
Qed.

Lemma weekday_range : 0 <= weekday t <= 6.
Proof. apply weekday_of_ord_range. Qed.

(** Before the last year the next 365 days exist. *)
Lemma toordinal_before_last_year :
  dt_year t < MAXYEAR -> toordinal t + 365 <= MAXORDINAL.
Proof.
  intros Hy. destruct valid_fields as (Hyr & Hm & Hd & _).
  pose proof (day_of_year_range _ _ _ Hm Hd) as R.
  unfold MAXYEAR in Hy.
  pose proof (days_before_year_next (dt_year t) 9999 ltac:(lia)) as U.
  change (days_before_year 9999) with 3651694 in U.
  unfold toordinal, ymd2ord, MAXORDINAL. lia.
Qed.

Lemma add_days_0 : add_days t 0 = Ret t.
Proof.
  pose proof toordinal_range as Hr.
  destruct valid_fields as (_ & Hm & Hd & _).
  rewrite (add_days_ord t 0 (dt_year t) (dt_month t) (dt_day t)).
  - destruct t; reflexivity.
  - lia.
  - rewrite Z.add_0_r. now apply ord2ymd_ymd2ord.
Qed.

Lemma add_days_1 :
  toordinal t + 1 <= MAXORDINAL -> add_days t 1 = Ret (roll_day t).
Proof.
  intros Hr. pose proof toordinal_range as Hr'.
  destruct valid_fields as (_ & Hm & Hd & _).
  pose proof (next_day_spec _ _ _ Hm Hd) as Hn. unfold roll_day.
  destruct (next_day _ _ _) as [[y' m'] d']. destruct Hn as (Hm' & Hd' & Ho).
  apply add_days_ord; [lia|].
  unfold toordinal. rewrite <- Ho. now apply ord2ymd_ymd2ord.
Qed.

(** Adding days within the calendar gives the date of the new ordinal. *)
Lemma add_days_valid (n : Z) :
  1 <= toordinal t + n <= MAXORDINAL ->
  exists y m d,
    add_days t n = Ret (with_date t y m d) /\
    valid_datetime (with_date t y m d) = true /\
    ymd2ord y m d = toordinal t + n.
Proof.
  intros Hr. pose proof (ord2ymd_valid _ Hr) as Ho.
  destruct (ord2ymd (toordinal t + n)) as [[y m] d] eqn:E.
  destruct Ho as [Hd Heq]. exists y, m, d. split; [|split].
  - now apply add_days_ord.
  - destruct valid_fields as (_ & _ & _ & Ht).
    apply valid_datetime_iff. simpl. now split.
  - exact Heq.
Qed.

Lemma replace_ok (y m d : Z) (ho mio : option Z) :
  1 <= y <= 9999 -> 1 <= m <= 12 -> 1 <= d <= days_in_month y m ->
  0 <= default ho (dt_hour t) <= 23 ->
  0 <= default mio (dt_minute t) <= 59 ->
  replace t y m d ho mio =
  Ret (with_time (with_date t y m d)
         (default ho (dt_hour t)) (default mio (dt_minute t))) /\
  valid_datetime (with_time (with_date t y m d)
         (default ho (dt_hour t)) (default mio (dt_minute t))) = true.
Proof.
  intros Hy Hm Hd Hh Hmi.
  destruct valid_fields as (_ & _ & _ & (_ & _ & Hs & Hus)).
  assert (Hv' : valid_datetime (with_time (with_date t y m d)
         (default ho (dt_hour t)) (default mio (dt_minute t))) = true).
  { apply valid_datetime_iff. simpl. split.
    - apply valid_date_iff. tauto.
    - unfold valid_time. tauto. }
  split; [|exact Hv'].
  unfold replace. unfold with_time, with_date in Hv'. simpl in Hv'.
  rewrite Hv'. reflexivity.
Qed.

End ValidDatetime.

(** The ordinal is monotone for the order of [datetime]. *)
Lemma dt_le_toordinal (a b : datetime) :
  valid_datetime a = true -> valid_datetime b = true ->
  dt_le a b = true -> toordinal a <= toordinal b.
Proof.
  intros Ha Hb Hle.
  destruct (valid_fields a Ha) as (_ & Hma & Hda & _).
  destruct (valid_fields b Hb) as (_ & Hmb & Hdb & _).
  apply ymd2ord_lex; try assumption.
  unfold dt_le, dt_key in Hle. simpl in Hle |- *.
  destruct (dt_year a <? dt_year b); [reflexivity|].
  destruct (dt_year a =? dt_year b); [|discriminate]. simpl in *.
  destruct (dt_month a <? dt_month b); [reflexivity|].
  destruct (dt_month a =? dt_month b); [|discriminate]. simpl in *.
  destruct (dt_day a <? dt_day b); [reflexivity|].
  destruct (dt_day a =? dt_day b); [|discriminate]. reflexivity.
Qed.

(** ** Adding a [relativedelta] to a valid datetime *)

Section Radd.

Variable t : datetime.
Hypothesis Hv : valid_datetime t = true.

(** Only absolute fields: month, day, hour and minute are replaced, the
    day clipped to the length of the month. *)
Lemma radd_absolute (mo da ho mio : option Z) :
  1 <= py_or mo (dt_month t) <= 12 ->
  1 <= py_or da (dt_day t) ->
  0 <= default ho (dt_hour t) <= 23 ->
  0 <= default mio (dt_minute t) <= 59 ->
  let m := py_or mo (dt_month t) in
  let d := Z.min (days_in_month (dt_year t) m) (py_or da (dt_day t)) in
  let r := with_time (with_date t (dt_year t) m d)
             (default ho (dt_hour t)) (default mio (dt_minute t)) in
  radd t (mkrelativedelta 0 0 0 None mo da ho mio None) = Ret r /\
  valid_datetime r = true.
Proof.
  intros Hm Hd Hh Hmi m d r.
  destruct (valid_fields t Hv) as (Hy & _ & _ & _).
  pose proof (days_in_month_bounds (dt_year t) m Hm) as Hdim.
  destruct (replace_ok t Hv (dt_year t) m d ho mio Hy Hm
              ltac:(subst d; lia) Hh Hmi) as [Hr Hvr].
  fold r in Hr, Hvr. split; [|exact Hvr].
  unfold radd. simpl. rewrite Z.add_0_r.
  rewrite (monthrange_ok _ _ Hm). simpl.
  fold m. fold d. rewrite Hr. simpl.
  rewrite (add_days_0 r Hvr). reflexivity.
Qed.

(** Only days and, possibly, a weekday: the days are added, then the
    first day of that weekday is looked for. *)
Lemma radd_days (n : Z) (wd : option Z) :
  radd t (mkrelativedelta 0 0 n None None None None None wd) =
  (ret <- add_days t n ;;
   match wd with
   | None => Ret ret
   | Some w => add_days ret ((7 - weekday ret + w) mod 7)
   end).
Proof.
  destruct (valid_fields t Hv) as (Hy & Hm & Hd & (Hh & Hmi & _)).
  unfold radd. simpl. rewrite Z.add_0_r.
  rewrite (monthrange_ok _ _ Hm). simpl.
  rewrite Z.min_r by lia.
  destruct (replace_ok t Hv (dt_year t) (dt_month t) (dt_day t) None None
              Hy Hm Hd Hh Hmi) as [Hr _].
  simpl in Hr. rewrite with_date_time_id in Hr. rewrite Hr. reflexivity.
Qed.

Lemma radd_day1 :
  toordinal t + 1 <= MAXORDINAL ->
  radd t (mkrelativedelta 0 0 1 None None None None None None) =
  Ret (roll_day t).
Proof.
  intros Hr. rewrite radd_days. rewrite (add_days_1 t Hv Hr). reflexivity.
Qed.

Lemma radd_months1 :
  fst (next_month (dt_year t) (dt_month t)) <= 9999 ->
  radd t (mkrelativedelta 0 1 0 None None None None None None) =
  Ret (roll_month t).
Proof.
  intros Hr.
  destruct (valid_fields t Hv) as (Hy & Hm & Hd & (Hh & Hmi & _)).
  unfold radd, roll_month. simpl. rewrite Z.add_0_r. unfold next_month in *.
  destruct (Z.ltb_spec (dt_month t) 12) as [Hlt|Hge]; simpl in Hr.
  - replace (dt_month t + 1 >? 12) with false by (symmetry; lia).
    replace (dt_month t + 1 <? 1) with false by (symmetry; lia).
    simpl. rewrite monthrange_ok by lia. simpl.
    pose proof (days_in_month_bounds (dt_year t) (dt_month t + 1)
                  ltac:(lia)).
    destruct (replace_ok t Hv (dt_year t) (dt_month t + 1)
                (Z.min (days_in_month (dt_year t) (dt_month t + 1))
                   (dt_day t))
                None None Hy ltac:(lia) ltac:(lia) Hh Hmi) as [Hrep Hvr].
    rewrite Hrep. cbn [bind]. rewrite (add_days_0 _ Hvr).
    destruct t; reflexivity.
  - replace (dt_month t + 1 >? 12) with true by (symmetry; lia).
    simpl. rewrite monthrange_ok by lia. simpl.
    assert (dt_month t = 12) as Hm12 by lia. rewrite Hm12.
    pose proof (days_in_month_bounds (dt_year t + 1) 1 ltac:(lia)).
    change (12 + 1 - 12) with 1.
    destruct (replace_ok t Hv (dt_year t + 1) 1
                (Z.min (days_in_month (dt_year t + 1) 1) (dt_day t))
                None None ltac:(lia) ltac:(lia) ltac:(lia) Hh Hmi)
      as [Hrep Hvr].
    rewrite Hrep. cbn [bind]. rewrite (add_days_0 _ Hvr).
    destruct t; reflexivity.
Qed.

Lemma radd_years1 :
  dt_year t + 1 <= 9999 ->
  radd t (mkrelativedelta 1 0 0 None None None None None None) =
  Ret (roll_year t).
Proof.
  intros Hr.
  destruct (valid_fields t Hv) as (Hy & Hm & Hd & (Hh & Hmi & _)).
  unfold radd, roll_year. simpl.
  rewrite monthrange_ok by lia. simpl.
  pose proof (days_in_month_bounds (dt_year t + 1) (dt_month t) Hm).
  destruct (replace_ok t Hv (dt_year t + 1) (dt_month t)
              (Z.min (days_in_month (dt_year t + 1) (dt_month t)) (dt_day t))
              None None ltac:(lia) Hm ltac:(lia) Hh Hmi) as [Hrep Hvr].
  rewrite Hrep. cbn [bind]. rewrite (add_days_0 _ Hvr).
  destruct t; reflexivity.
Qed.

End Radd.

(** ** The rules that ground a latent entity *)

Lemma grounded_by_roll_intro (ts naive : datetime)
    (roll : datetime -> datetime) (fields : datetime -> Time)
    (result : res (option Time)) :
  result = Ret (Some (fields (if dt_le naive ts then roll naive else naive)))
  -> grounded_by_roll ts naive roll fields result.
Proof.
  intros ->. split; [reflexivity|]. intros ->. now rewrite dt_le_refl.
Qed.

Lemma py_or_nonzero (v b : Z) : v <> 0 -> py_or (Some v) b = v.
Proof.
  intros Hv. unfold py_or. destruct (Z.eqb_spec v 0); [contradiction|].
  reflexivity.
Qed.

(** Every start hour of the table is an hour of the day. *)
Lemma pod_hours_range (p : string) (hours : Z * Z) :
  dict_get pod_hours p = Some hours -> 0 <= fst hours <= 23.
Proof.
  unfold pod_hours. simpl.
  repeat match goal with
         | |- context [String.eqb p ?k] => destruct (String.eqb p k)
         end;
    intros E; inversion E; subst; simpl; lia.
Qed.

Section Grounding.

Variable ts : datetime.
Hypothesis Hv : valid_datetime ts = true.
Hypothesis Hy : dt_year ts < MAXYEAR.

Lemma ruleLatentDOM_roll (dom : Time) (d : Z) :
  day dom = Some d -> 1 <= d ->
  grounded_by_roll ts
    (with_date ts (dt_year ts) (dt_month ts)
       (Z.min (days_in_month (dt_year ts) (dt_month ts)) d))
    roll_month Time_of_date (ruleLatentDOM ts dom).
Proof.
  intros Hday Hd. apply grounded_by_roll_intro.
  destruct (valid_fields ts Hv) as (Hyr & Hm & Hdd & (Hh & Hmi & _)).
  pose proof (py_or_nonzero d (dt_day ts) ltac:(lia)) as Hpo.
  destruct (radd_absolute ts Hv None (Some d) None None
              ltac:(simpl; lia) ltac:(rewrite Hpo; lia)
              ltac:(simpl; lia) ltac:(simpl; lia)) as [Hr Hvr].
  rewrite Hpo in Hr, Hvr. simpl py_or in Hr, Hvr. simpl default in Hr, Hvr.
  set (naive := with_date ts (dt_year ts) (dt_month ts)
                  (Z.min (days_in_month (dt_year ts) (dt_month ts)) d)) in *.
  assert (En : with_time naive (dt_hour ts) (dt_minute ts) = naive)
    by (destruct ts; reflexivity).
  rewrite En in Hr, Hvr.
  unfold ruleLatentDOM. rewrite Hday, Hr. cbn [bind].
  destruct (dt_le naive ts); cbn [bind]; [|reflexivity].
  rewrite (radd_months1 naive Hvr); [reflexivity|].
  unfold next_month, MAXYEAR in *. simpl.
  destruct (dt_month ts <? 12); simpl; lia.
Qed.

Lemma ruleLatentDOY_roll (doy : Time) (M D : Z) :
  month doy = Some M -> day doy = Some D -> 1 <= M <= 12 -> 1 <= D ->
  grounded_by_roll ts
    (with_date ts (dt_year ts) M (Z.min (days_in_month (dt_year ts) M) D))
    roll_year Time_of_date (ruleLatentDOY ts doy).
Proof.
  intros Hmonth Hday HM HD. apply grounded_by_roll_intro.
  destruct (valid_fields ts Hv) as (Hyr & Hm & Hdd & (Hh & Hmi & _)).
  pose proof (py_or_nonzero D (dt_day ts) ltac:(lia)) as HpD.
  pose proof (py_or_nonzero M (dt_month ts) ltac:(lia)) as HpM.
  destruct (radd_absolute ts Hv (Some M) (Some D) None None
              ltac:(rewrite HpM; lia) ltac:(rewrite HpD; lia)
              ltac:(simpl; lia) ltac:(simpl; lia)) as [Hr Hvr].
  rewrite HpD, HpM in Hr, Hvr. simpl default in Hr, Hvr.
  set (naive := with_date ts (dt_year ts) M
                  (Z.min (days_in_month (dt_year ts) M) D)) in *.
  assert (En : with_time naive (dt_hour ts) (dt_minute ts) = naive)
    by (destruct ts; reflexivity).
  rewrite En in Hr, Hvr.
  unfold ruleLatentDOY. rewrite Hmonth, Hday, Hr. cbn [bind].
  destruct (dt_le naive ts); cbn [bind]; [|reflexivity].
  rewrite (radd_years1 naive Hvr); [reflexivity|].
  unfold MAXYEAR in *. simpl. lia.
Qed.

Lemma ruleLatentTOD_roll (tod : Time) (h : Z) :
  hour tod = Some h -> 0 <= h <= 23 -> 0 <= py_or (minute tod) 0 <= 59 ->
  grounded_by_roll ts (with_time ts h (py_or (minute tod) 0))
    roll_day Time_of_datetime (ruleLatentTOD ts tod).
Proof.
  intros Hhour Hh Hmi. apply grounded_by_roll_intro.
  destruct (valid_fields ts Hv) as (Hyr & Hm & Hdd & _).
  destruct (radd_absolute ts Hv None None (Some h)
              (Some (py_or (minute tod) 0))
              ltac:(simpl; lia) ltac:(simpl; lia)
              ltac:(simpl; lia) ltac:(simpl; lia)) as [Hr Hvr].
  simpl py_or in Hr, Hvr. simpl default in Hr, Hvr.
  rewrite Z.min_r in Hr, Hvr by lia.
  set (naive := with_time ts h (py_or (minute tod) 0)) in *.
  assert (En : with_time (with_date ts (dt_year ts) (dt_month ts) (dt_day ts))
                 h (py_or (minute tod) 0) = naive)
    by (destruct ts; reflexivity).
  rewrite En in Hr, Hvr.
  unfold ruleLatentTOD. rewrite Hhour, Hr. cbn [bind].
  destruct (dt_le naive ts); cbn [bind]; [|reflexivity].
  rewrite (radd_day1 naive Hvr); [reflexivity|].
  pose proof (toordinal_before_last_year ts Hv Hy).
  change (toordinal naive) with (toordinal ts). lia.
Qed.

Lemma ruleLatentPOD_roll (pod : Time) (p : string) (hours : Z * Z) :
  POD pod = Some p -> dict_get pod_hours p = Some hours ->
  grounded_by_roll ts (with_time ts (fst hours) (dt_minute ts))
    roll_day (Time_of_date_pod (POD pod)) (ruleLatentPOD ts pod).
Proof.
  intros Hpod Hget. apply grounded_by_roll_intro.
  pose proof (pod_hours_range p hours Hget) as Hh.
  destruct (valid_fields ts Hv) as (Hyr & Hm & Hdd & (_ & Hmi & _)).
  destruct hours as [h_from h_to]. simpl fst in *.
  destruct (radd_absolute ts Hv None None (Some h_from) None
              ltac:(simpl; lia) ltac:(simpl; lia)
              ltac:(simpl; lia) ltac:(simpl; lia)) as [Hr Hvr].
  simpl py_or in Hr, Hvr. simpl default in Hr, Hvr.
  rewrite Z.min_r in Hr, Hvr by lia.
  set (naive := with_time ts h_from (dt_minute ts)) in *.
  assert (En : with_time (with_date ts (dt_year ts) (dt_month ts) (dt_day ts))
                 h_from (dt_minute ts) = naive)
    by (destruct ts; reflexivity).
  rewrite En in Hr, Hvr.
  unfold ruleLatentPOD, pod_hours_getitem. rewrite Hpod, Hget.
  cbn [bind]. rewrite Hr. cbn [bind].
  destruct (dt_le naive ts); cbn [bind]; [|reflexivity].
  rewrite (radd_day1 naive Hvr); [reflexivity|].
  pose proof (toordinal_before_last_year ts Hv Hy).
  change (toordinal naive) with (toordinal ts). lia.
Qed.

End Grounding.

(** C2.  Each of the rules [ruleLatentDOM], [ruleLatentDOY],
    [ruleLatentTOD] and [ruleLatentPOD] compares its naive next occurrence
    with the reference instant by [<=].  The naive occurrence is [ts] with
    the day of the month, the month and day, the hour and minute, or the
    start hour of the part of day put in.  When it is equal to or earlier
    than [ts], the result holds the fields of the occurrence one month, one
    year, one day and one day later; otherwise it holds the fields of the
    occurrence itself.  An occurrence equal to [ts] is rolled.  The
    reference instant is a valid datetime before the year 9999, the last
    one that [datetime] has, so that the rolled date exists. *)
Theorem latent_rules_roll_forward (ts : datetime) (dom doy tod pod : Time)
    (d M D h : Z) (p : string) (hours : Z * Z) :
  valid_datetime ts = true ->
  dt_year ts < MAXYEAR ->
  day dom = Some d -> 1 <= d ->
  month doy = Some M -> day doy = Some D -> 1 <= M <= 12 -> 1 <= D ->
  hour tod = Some h -> 0 <= h <= 23 -> 0 <= py_or (minute tod) 0 <= 59 ->
  POD pod = Some p -> dict_get pod_hours p = Some hours ->
  grounded_by_roll ts
    (with_date ts (dt_year ts) (dt_month ts)
       (Z.min (days_in_month (dt_year ts) (dt_month ts)) d))
    roll_month Time_of_date (ruleLatentDOM ts dom) /\
  grounded_by_roll ts
    (with_date ts (dt_year ts) M (Z.min (days_in_month (dt_year ts) M) D))
    roll_year Time_of_date (ruleLatentDOY ts doy) /\
  grounded_by_roll ts (with_time ts h (py_or (minute tod) 0))
    roll_day Time_of_datetime (ruleLatentTOD ts tod) /\
  grounded_by_roll ts (with_time ts (fst hours) (dt_minute ts))
    roll_day (Time_of_date_pod (POD pod)) (ruleLatentPOD ts pod).
Proof.
  intros Hv Hy Hdom Hd Hmonth Hday HM HD Hhour Hh Hmi Hpod Hget.
  split; [|split; [|split]].
  - now apply ruleLatentDOM_roll.
  - now apply ruleLatentDOY_roll.
  - now apply ruleLatentTOD_roll.
  - now apply (ruleLatentPOD_roll ts Hv Hy pod p).
Qed.

(** On 2022-03-10 at 09:30 the 10th, the 10th of March and 9:30 are all
    equal to the reference instant, and the morning has begun: each rule
    rolls forward. *)
Lemma latent_rules_roll_forward_witness :
  ruleLatentDOM (march_10_2022 9 30 0 0) (mkTime None None (Some 10) None None None None)
    = Ret (Some (Time_date 2022 4 10)) /\
  ruleLatentDOY (march_10_2022 9 30 0 0) (mkTime None (Some 3) (Some 10) None None None None)
    = Ret (Some (Time_date 2023 3 10)) /\
  ruleLatentTOD (march_10_2022 9 30 0 0) (Time_tod (Some 9) (Some 30))
    = Ret (Some (mkTime (Some 2022) (Some 3) (Some 11) (Some 9) (Some 30)
                        None None)) /\
  ruleLatentPOD (march_10_2022 9 30 0 0) (Time_pod "morning")
    = Ret (Some (mkTime (Some 2022) (Some 3) (Some 11) None None None
                        (Some "morning"%string))).
Proof.
  destruct (latent_rules_roll_forward (march_10_2022 9 30 0 0)
              (mkTime None None (Some 10) None None None None)
              (mkTime None (Some 3) (Some 10) None None None None)
              (Time_tod (Some 9) (Some 30)) (Time_pod "morning")
              10 3 10 9 "morning" (5, 8))
    as ([_ H1] & [_ H2] & [_ H3] & [H4 _]);
    try reflexivity; try (simpl; lia).
  split; [|split; [|split]].
  - apply H1. reflexivity.
  - apply H2. reflexivity.
  - apply H3. reflexivity.
  - exact H4.
Defined.

(** ** Weekdays: [ruleLatentDOW] and [ruleNextDOW] *)

(** C1.  For every valid reference timestamp [ts] and every entity with
    only the day of the week set, to a weekday [w] of 0..6, [ruleLatentDOW]
    returns a [Time] with year, month and day of an existing date whose
    weekday is [w] and which is at or after the date of [ts], within one
    week of it; when [w] is the weekday of [ts] itself, so that the naive
    target date is the date of [ts], the result is exactly seven days
    after the date of [ts].  The date seven days after [ts] must be one
    [datetime] can hold, that is, no later than 9999-12-31. *)
Theorem ruleLatentDOW_next_weekday (ts : datetime) (w : Z) :
  valid_datetime ts = true ->
  0 <= w <= 6 ->
  toordinal ts + 7 <= MAXORDINAL ->
  exists y m d,
    ruleLatentDOW ts (Time_dow w) = Ret (Some (Time_date y m d)) /\
    valid_date y m d = true /\
    weekday_of_ord (ymd2ord y m d) = w /\
    toordinal ts <= ymd2ord y m d <= toordinal ts + 7 /\
    (w = weekday ts -> ymd2ord y m d = toordinal ts + 7) /\
    (w <> weekday ts ->
     ymd2ord y m d = toordinal ts + (w - weekday ts) mod 7).
Proof.
  intros Hv Hw Hr.
  pose proof (toordinal_range ts Hv) as Hts.
  pose proof (weekday_range ts) as Hwt.
  set (j := (7 - weekday ts + w) mod 7).
  assert (Hj : 0 <= j <= 6).
  { subst j. pose proof (Z.mod_pos_bound (7 - weekday ts + w) 7). lia. }
  unfold ruleLatentDOW. simpl rd_of_weekday. unfold weekdays_getitem.
  replace (0 <=? w) with true by (symmetry; apply Z.leb_le; lia).
  replace (w <? 7) with true by (symmetry; apply Z.ltb_lt; lia).
  cbn [andb bind].
  rewrite (radd_days ts Hv). rewrite (add_days_0 ts Hv). cbn [bind].
  fold j.
  destruct (add_days_valid ts Hv j ltac:(lia))
    as (y1 & m1 & d1 & Ha & Hv1 & Ho1).
  rewrite Ha. cbn [bind].
  destruct (Z.eq_dec j 0) as [Hj0|Hj0].
  - (* the target weekday is the weekday of ts: one week later *)
    assert (Ew : w = weekday ts)
      by (apply (jump_zero_iff (weekday ts) w Hwt Hw); exact Hj0).
    assert (Edm : with_date ts y1 m1 d1 = ts).
    { rewrite Hj0, Z.add_0_r in Ho1.
      destruct (valid_fields ts Hv) as (_ & Hm & Hd & _).
      destruct (valid_fields _ Hv1) as (_ & Hm1 & Hd1 & _).
      simpl in Hm1, Hd1.
      apply ymd2ord_inj in Ho1; try assumption.
      destruct Ho1 as (-> & -> & ->). destruct ts; reflexivity. }
    rewrite Edm, dt_le_refl. rewrite (radd_days ts Hv).
    destruct (add_days_valid ts Hv 7 ltac:(lia))
      as (y & m & d & Ha7 & Hv7 & Ho7).
    rewrite Ha7. cbn [bind]. exists y, m, d.
    split; [reflexivity|]. split.
    { apply valid_datetime_iff in Hv7. tauto. }
    rewrite Ho7. split.
    { rewrite weekday_week. symmetry. exact Ew. }
    split; [lia|]. split; [reflexivity|]. intros Hne. contradiction.
  - assert (Hne : w <> weekday ts).
    { intros E. apply Hj0.
      apply (jump_zero_iff (weekday ts) w Hwt Hw). exact E. }
    destruct (dt_le (with_date ts y1 m1 d1) ts) eqn:Hle.
    { apply dt_le_toordinal in Hle; try assumption.
      unfold toordinal at 1 in Hle. simpl in Hle. lia. }
    cbn [bind]. exists y1, m1, d1.
    split; [reflexivity|]. split.
    { apply valid_datetime_iff in Hv1. tauto. }
    rewrite Ho1. split.
    { subst j. apply weekday_jump. exact Hw. }
    split; [lia|]. split; [intros E; contradiction|].
    intros _. subst j. now rewrite jump_mod.
Qed.

(** Thursday, asked on Thursday 2022-03-10: the Thursday a week later. *)
Lemma ruleLatentDOW_next_weekday_witness :
  exists y m d,
    ruleLatentDOW (march_10_2022 9 30 0 0) (Time_dow 3)
    = Ret (Some (Time_date y m d)) /\
    ymd2ord y m d = toordinal (march_10_2022 9 30 0 0) + 7.
Proof.
  destruct (ruleLatentDOW_next_weekday (march_10_2022 9 30 0 0) 3)
    as (y & m & d & H1 & _ & _ & _ & H2 & _).
  - reflexivity.
  - lia.
  - vm_compute. discriminate.
  - exists y, m, d. split; [exact H1|]. apply H2. reflexivity.
Defined.

Example ruleLatentDOW_thursday :
  ruleLatentDOW (march_10_2022 9 30 0 0) (Time_dow 3)
  = Ret (Some (Time_date 2022 3 17)).
Proof. vm_compute. reflexivity. Qed.

Example ruleLatentDOW_monday :
  ruleLatentDOW (march_10_2022 9 30 0 0) (Time_dow 0)
  = Ret (Some (Time_date 2022 3 14)).
Proof. vm_compute. reflexivity. Qed.

(** On the last day of the calendar there is no week to roll to. *)
Example ruleLatentDOW_last_day :
  ruleLatentDOW (mkdatetime 9999 12 31 0 0 0 0) (Time_dow 4)
  = Raise OverflowError.
Proof. vm_compute. reflexivity. Qed.

(** C3, as the code has it.  With a reference instant on 2022-03-10, a
    Thursday, [ruleNextDOW] on the day-of-week entity of Monday yields
    [Time(year=2022, month=3, day=21)]: the relativedelta first adds one
    week, which gives March 17, and then moves to the first Monday at or
    after it. *)
Theorem ruleNextDOW_monday_march_2022 (h mi s us : Z) :
  valid_datetime (march_10_2022 h mi s us) = true ->
  weekday (march_10_2022 h mi s us) = 3 /\
  ruleNextDOW (march_10_2022 h mi s us) (Time_dow 0)
  = Ret (Some (Time_date 2022 3 21)).
Proof.
  intros Hv. split; [reflexivity|].
  unfold ruleNextDOW.
  change (rd_of_weekday (DOW (Time_dow 0))) with (@Ret (option Z) (Some 0)).
  cbn [bind].
  rewrite (radd_days _ Hv).
  rewrite (add_days_ord _ 7 2022 3 17);
    [|vm_compute; split; discriminate|reflexivity].
  cbn [bind].
  rewrite (add_days_ord _ _ 2022 3 21);
    [reflexivity|vm_compute; split; discriminate|reflexivity].
Qed.

Lemma ruleNextDOW_monday_march_2022_witness :
  ruleNextDOW ts0 (Time_dow 0) = Ret (Some (Time_date 2022 3 21)).
Proof.
  apply (ruleNextDOW_monday_march_2022 0 0 0 0). reflexivity.
Defined.

(** C3 as stated fails: the result is not March 14. *)
Lemma ruleNextDOW_not_march_14 :
  ruleNextDOW ts0 (Time_dow 0) <> Ret (Some (Time_date 2022 3 14)).
Proof. vm_compute. discriminate. Qed.

(** March 14 is what [ruleAtDOW], the rule of "on Monday", returns. *)
Example ruleAtDOW_monday_march_2022 :
  ruleAtDOW ts0 (Time_dow 0) = Ret (Some (Time_date 2022 3 14)).
Proof. vm_compute. reflexivity. Qed.

(** ** Times of day: [ruleHHMM], [ruleTODPOD], [rulePODTOD] *)

(** C5.  For a time of day with hour [h] and a part of day with tag [p],
    [ruleTODPOD] returns [None], without raising, exactly when [h > 12] and
    [p] contains 'beforenoon' or 'morning'; when [h <= 12] and [p] contains
    'afternoon', 'evening' or 'night' it returns the [Time] with hour
    [h + 12]; in every other case it returns the [Time] with hour [h]; the
    minute of the time of day is kept throughout. *)
Theorem ruleTODPOD_cases (ts : datetime) (tod pod : Time) (h : Z)
    (p : string) :
  hour tod = Some h -> POD pod = Some p ->
  (ruleTODPOD ts tod pod = Ret None <->
   h > 12 /\ before_noon_tag p = true) /\
  (h <= 12 -> after_noon_tag p = true ->
   ruleTODPOD ts tod pod = Ret (Some (Time_tod (Some (h + 12)) (minute tod))))
  /\
  (~ (h > 12 /\ before_noon_tag p = true) ->
   ~ (h <= 12 /\ after_noon_tag p = true) ->
   ruleTODPOD ts tod pod = Ret (Some (Time_tod (Some h) (minute tod)))).
Proof.
  intros Hh Hp. unfold ruleTODPOD, after_noon_tag, before_noon_tag.
  rewrite Hh, Hp. cbn [py_le py_gt py_in and_then or_else bind].
  destruct (Z.leb_spec h 12) as [Hle|Hgt]; cbn [bind].
  - replace (h >? 12) with false by (symmetry; lia).
    destruct (contains "afternoon" p), (contains "evening" p),
      (contains "night" p); cbn [bind orb];
      repeat split; intros; try discriminate; try lia; try tauto.
  - replace (h >? 12) with true by (symmetry; lia).
    destruct (contains "beforenoon" p), (contains "morning" p);
      cbn [bind orb];
      repeat split; intros; try discriminate; try lia; try tauto.
Qed.

(** "17 Uhr morgen" is not merged. *)
Lemma ruleTODPOD_cases_witness :
  ruleTODPOD ts0 (Time_tod (Some 17) None) (Time_pod "morning") = Ret None.
Proof.
  apply (ruleTODPOD_cases ts0 (Time_tod (Some 17) None) (Time_pod "morning")
           17 "morning"); [reflexivity|reflexivity|].
  split; [lia|reflexivity].
Defined.

Example ruleTODPOD_three_in_the_afternoon :
  ruleTODPOD ts0 (Time_tod (Some 3) None) (Time_pod "afternoon")
  = Ret (Some (Time_tod (Some 15) None)).
Proof. reflexivity. Qed.

Example ruleTODPOD_nine_in_the_morning :
  ruleTODPOD ts0 (Time_tod (Some 9) (Some 15)) (Time_pod "earlymorning")
  = Ret (Some (Time_tod (Some 9) (Some 15))).
Proof. reflexivity. Qed.

(** C10.  [rulePODTOD ts pod tod] returns what [ruleTODPOD ts tod pod]
    returns, a [Time], [None] or an exception alike, for every reference
    timestamp and every two entities. *)
Theorem rulePODTOD_is_ruleTODPOD (ts : datetime) (pod tod : Time) :
  rulePODTOD ts pod tod = ruleTODPOD ts tod pod.
Proof. reflexivity. Qed.

Lemma py_int_digits (s : string) :
  all_digits s = true -> exists v, py_int s = Ret v.
Proof.
  unfold all_digits, py_int. destruct s as [|c s]; [discriminate|].
  destruct (int_digits 0 (String c s)) as [v|]; [|discriminate].
  intros _. now exists v.
Qed.

Lemma prefix_a_not_p (s : string) :
  String.prefix "a" s = true -> String.prefix "p" s = false.
Proof.
  destruct s as [|c s]; [reflexivity|].
  change (String.prefix "a" (String c s))
    with (if ascii_dec "a" c then String.prefix "" s else false).
  destruct (ascii_dec "a" c) as [<-|]; [reflexivity|discriminate].
Qed.

(** On a match whose hour group is a string of digits and whose minute
    group is absent, empty or a string of digits, [ruleHHMM] returns a
    [Time] and never [None]; its minute is the minute group read as a
    number, or 0.  Without a marker the hour is the hour read.  With a
    marker and an hour [h > 12] the marker is ignored and the hour and
    minute read are returned; with a marker that starts with 'p' and
    [h <= 12] the hour is [h + 12]; with a marker that starts with 'a' and
    [h <= 12] the hour is [h]; and with a marker that starts with neither
    the hour is [h]. *)
Theorem ruleHHMM_total (ts : datetime) (m : HHMMMatch) :
  all_digits (group_hour m) = true ->
  minute_group_ok (group_minute m) ->
  exists h mi t,
    py_int (group_hour m) = Ret h /\
    minute_read (group_minute m) = Ret mi /\
    ruleHHMM ts m = Ret (Some t) /\
    minute t = Some mi /\
    (group_ampm m = None -> hour t = Some h) /\
    (forall ampm, group_ampm m = Some ampm ->
       (h > 12 -> t = Time_tod (Some h) (Some mi)) /\
       (String.prefix "p" ampm = true -> h <= 12 -> hour t = Some (h + 12)) /\
       (String.prefix "a" ampm = true -> h <= 12 -> hour t = Some h) /\
       (String.prefix "a" ampm = false -> String.prefix "p" ampm = false ->
        hour t = Some h)).
Proof.
  intros Hh Hm. destruct (py_int_digits _ Hh) as [h Eh].
  assert (Emi : exists mi, minute_read (group_minute m) = Ret mi).
  { unfold minute_read. destruct (group_minute m) as [s|]; [|now exists 0].
    destruct s as [|c s]; [now exists 0|].
    destruct Hm as [Hm|Hm]; [discriminate|].
    exact (py_int_digits _ Hm). }
  destruct Emi as [mi Emi].
  unfold ruleHHMM. fold (minute_read (group_minute m)).
  rewrite Eh. cbn [bind]. rewrite Emi. cbn [bind].
  exists h, mi.
  destruct (group_ampm m) as [ampm|].
  - destruct (String.prefix "a" ampm) eqn:Ea;
      destruct (Z.leb_spec h 12) as [Hle|Hgt]; cbn [andb].
    + eexists. split; [reflexivity|]. split; [reflexivity|].
      split; [reflexivity|]. split; [reflexivity|]. split; [discriminate|].
      intros a [= <-]. rewrite Ea.
      split; [lia|]. split; [|split; [reflexivity|discriminate]].
      rewrite (prefix_a_not_p _ Ea). discriminate.
    + rewrite andb_false_r.
      eexists. split; [reflexivity|]. split; [reflexivity|].
      split; [reflexivity|]. split; [reflexivity|]. split; [discriminate|].
      intros a [= <-]. split; [reflexivity|].
      split; [intros; lia|]. split; [intros; lia|reflexivity].
    + destruct (String.prefix "p" ampm) eqn:Ep; cbn [andb].
      * eexists. split; [reflexivity|]. split; [reflexivity|].
        split; [reflexivity|]. split; [reflexivity|]. split; [discriminate|].
        intros a [= <-]. rewrite Ea, Ep.
        split; [lia|]. split; [reflexivity|]. split; discriminate.
      * eexists. split; [reflexivity|]. split; [reflexivity|].
        split; [reflexivity|]. split; [reflexivity|]. split; [discriminate|].
        intros a [= <-]. rewrite Ea, Ep.
        split; [reflexivity|]. split; [discriminate|].
        split; [discriminate|reflexivity].
    + rewrite andb_false_r.
      eexists. split; [reflexivity|]. split; [reflexivity|].
      split; [reflexivity|]. split; [reflexivity|]. split; [discriminate|].
      intros a [= <-]. split; [reflexivity|].
      split; [intros; lia|]. split; [intros; lia|reflexivity].
  - eexists. split; [reflexivity|]. split; [reflexivity|].
    split; [reflexivity|]. split; [reflexivity|]. split; [reflexivity|].
    intros a [=].
Qed.

Lemma ruleHHMM_total_witness :
  exists h mi t,
    py_int (group_hour match_1330am) = Ret h /\
    minute_read (group_minute match_1330am) = Ret mi /\
    ruleHHMM ts0 match_1330am = Ret (Some t) /\
    minute t = Some mi /\
    (group_ampm match_1330am = None -> hour t = Some h) /\
    (forall ampm, group_ampm match_1330am = Some ampm ->
       (h > 12 -> t = Time_tod (Some h) (Some mi)) /\
       (String.prefix "p" ampm = true -> h <= 12 -> hour t = Some (h + 12)) /\
       (String.prefix "a" ampm = true -> h <= 12 -> hour t = Some h) /\
       (String.prefix "a" ampm = false -> String.prefix "p" ampm = false ->
        hour t = Some h)).
Proof.
  apply (ruleHHMM_total ts0 match_1330am).
  - reflexivity.
  - right. reflexivity.
Defined.

(** C7 at "6 uhr pm".  For "6pm" [ruleHHMM] returns the hour 18.  For
    "6 uhr pm" the marker group is " pm", with the blank that follows
    "uhr": it starts neither with 'a' nor with 'p', the rule falls into its
    last branch, which its comment reserves for hours above 12, and returns
    the hour 6, not 18, although a pm marker is present and the hour is at
    most 12.  A marker in capitals, "6PM", is returned as the hour 6 as
    well. *)
Theorem ruleHHMM_marker_after_uhr (ts : datetime) :
  ruleHHMM ts match_6pm = Ret (Some (Time_tod (Some 18) (Some 0))) /\
  group_ampm match_6_uhr_pm = Some " pm"%string /\
  ruleHHMM ts match_6_uhr_pm = Ret (Some (Time_tod (Some 6) (Some 0))) /\
  ruleHHMM ts match_6PM = Ret (Some (Time_tod (Some 6) (Some 0))).
Proof. repeat split. Qed.

(** "13:30am" *)
Example ruleHHMM_1330am :
  ruleHHMM ts0 match_1330am = Ret (Some (Time_tod (Some 13) (Some 30))).
Proof. reflexivity. Qed.

Example ruleHHMM_6pm :
  ruleHHMM ts0 match_6pm = Ret (Some (Time_tod (Some 18) (Some 0))).
Proof. reflexivity. Qed.

(** ** Intervals: the join rules *)

Lemma ruleTODTOD_keeps_endpoints (ts : datetime) (t1 t2 : Time)
    (i : Interval) :
  ruleTODTOD ts t1 t2 = Ret (Some i) -> i = mkInterval (Some t1) (Some t2).
Proof.
  unfold ruleTODTOD.
  destruct (py_gt (hour t1) (hour t2)) as [[|]|]; cbn [bind];
    try discriminate.
  destruct (py_eq (hour t1) (hour t2)).
  - destruct (minute t1) as [m1|], (minute t2) as [m2|];
      cbn [is_set andb negb and_then py_ge bind]; try discriminate.
    + destruct (m1 >=? m2); [discriminate|]. now intros [= <-].
    + now intros [= <-].
  - now intros [= <-].
Qed.

(** C6, as the code has it.  For "5 - 6pm" the marker of the right
    endpoint does not reach the left one: [ruleHHMM] builds
    [Time(hour=5, minute=0)] for the bare "5" and
    [Time(hour=18, minute=0)] for "6pm", and [ruleTODTOD] joins them into
    the interval of these two times; whatever it joins, it alters neither
    endpoint.  The left hour stays 5. *)
Theorem five_to_six_pm_keeps_left_hour (ts : datetime) :
  ruleHHMM ts match_5 = Ret (Some (Time_tod (Some 5) (Some 0))) /\
  ruleHHMM ts match_6pm = Ret (Some (Time_tod (Some 18) (Some 0))) /\
  join_HHMM ts match_5 match_6pm =
    Ret (Some (mkInterval (Some (Time_tod (Some 5) (Some 0)))
                          (Some (Time_tod (Some 18) (Some 0))))) /\
  (forall t1 t2 i,
     ruleTODTOD ts t1 t2 = Ret (Some i) ->
     t_from i = Some t1 /\ t_to i = Some t2).
Proof.
  split; [reflexivity|]. split; [reflexivity|]. split; [reflexivity|].
  intros t1 t2 i Hi. apply ruleTODTOD_keeps_endpoints in Hi. subst i.
  split; reflexivity.
Qed.

Lemma five_to_six_pm_keeps_left_hour_witness :
  t_from (mkInterval (Some (Time_tod (Some 5) (Some 0)))
                     (Some (Time_tod (Some 18) (Some 0))))
  = Some (Time_tod (Some 5) (Some 0)).
Proof.
  destruct (five_to_six_pm_keeps_left_hour ts0) as (_ & _ & _ & Hk).
  apply (Hk (Time_tod (Some 5) (Some 0)) (Time_tod (Some 18) (Some 0))).
  reflexivity.
Defined.

(** C6 as stated fails: no interval that starts at hour 17 is built. *)
Lemma five_to_six_pm_not_17 :
  ~ exists i t, join_HHMM ts0 match_5 match_6pm = Ret (Some i) /\
                t_from i = Some t /\ hour t = Some 17.
Proof.
  intros (i & t & Hj & Hf & Hh).
  vm_compute in Hj. injection Hj as <-. simpl in Hf.
  injection Hf as <-. discriminate Hh.
Qed.

(** Two dates: an interval exactly when the first is strictly earlier. *)
Lemma ruleDateDate_strict (ts : datetime) (d1 d2 : Time)
    (y1 m1 a1 y2 m2 a2 : Z) :
  year d1 = Some y1 -> month d1 = Some m1 -> day d1 = Some a1 ->
  year d2 = Some y2 -> month d2 = Some m2 -> day d2 = Some a2 ->
  ruleDateDate ts d1 d2 =
  Ret (if lex_lt [y1; m1; a1] [y2; m2; a2]
       then Some (mkInterval (Some d1) (Some d2)) else None).
Proof.
  intros Hy1 Hm1 Hd1 Hy2 Hm2 Hd2. unfold ruleDateDate.
  rewrite Hy1, Hm1, Hd1, Hy2, Hm2, Hd2.
  cbn [py_gt py_ge py_eq and_then bind lex_lt].
  destruct (Z.gtb_spec y1 y2), (Z.ltb_spec y1 y2), (Z.eqb_spec y1 y2);
    try lia; cbn [bind andb orb]; try reflexivity.
  destruct (Z.gtb_spec m1 m2), (Z.ltb_spec m1 m2), (Z.eqb_spec m1 m2);
    try lia; cbn [bind andb orb]; try reflexivity.
  destruct (Z.geb_spec a1 a2), (Z.ltb_spec a1 a2);
    try lia; rewrite ?andb_false_r; cbn [bind andb orb]; try reflexivity.
Qed.

(** Two date-times with their minutes set: likewise. *)
Lemma ruleDateTimeDateTime_strict (ts : datetime) (d1 d2 : Time)
    (y1 m1 a1 h1 n1 y2 m2 a2 h2 n2 : Z) :
  year d1 = Some y1 -> month d1 = Some m1 -> day d1 = Some a1 ->
  hour d1 = Some h1 -> minute d1 = Some n1 ->
  year d2 = Some y2 -> month d2 = Some m2 -> day d2 = Some a2 ->
  hour d2 = Some h2 -> minute d2 = Some n2 ->
  ruleDateTimeDateTime ts d1 d2 =
  Ret (if lex_lt [y1; m1; a1; h1; n1] [y2; m2; a2; h2; n2]
       then Some (mkInterval (Some d1) (Some d2)) else None).
Proof.
  intros Hy1 Hm1 Hd1 Hh1 Hn1 Hy2 Hm2 Hd2 Hh2 Hn2.
  unfold ruleDateTimeDateTime.
  rewrite Hy1, Hm1, Hd1, Hh1, Hn1, Hy2, Hm2, Hd2, Hh2, Hn2.
  cbn [py_gt py_ge py_eq and_then bind lex_lt].
  destruct (Z.gtb_spec y1 y2), (Z.ltb_spec y1 y2), (Z.eqb_spec y1 y2);
    try lia; cbn [bind andb orb]; try reflexivity.
  destruct (Z.gtb_spec m1 m2), (Z.ltb_spec m1 m2), (Z.eqb_spec m1 m2);
    try lia; cbn [bind andb orb]; try reflexivity.
  destruct (Z.gtb_spec a1 a2), (Z.ltb_spec a1 a2), (Z.eqb_spec a1 a2);
    try lia; cbn [bind andb orb]; try reflexivity.
  destruct (Z.gtb_spec h1 h2), (Z.ltb_spec h1 h2), (Z.eqb_spec h1 h2);
    try lia; cbn [bind andb orb]; try reflexivity.
  destruct (Z.geb_spec n1 n2), (Z.ltb_spec n1 n2);
    try lia; rewrite ?andb_false_r; cbn [bind andb orb]; try reflexivity.
Qed.

(** Two times of day with their minutes set: likewise. *)
Lemma ruleTODTOD_minutes_set (ts : datetime) (t1 t2 : Time)
    (h1 n1 h2 n2 : Z) :
  hour t1 = Some h1 -> minute t1 = Some n1 ->
  hour t2 = Some h2 -> minute t2 = Some n2 ->
  ruleTODTOD ts t1 t2 =
  Ret (if lex_lt [h1; n1] [h2; n2]
       then Some (mkInterval (Some t1) (Some t2)) else None).
Proof.
  intros Hh1 Hn1 Hh2 Hn2. unfold ruleTODTOD.
  rewrite Hh1, Hn1, Hh2, Hn2.
  cbn [py_gt py_ge py_eq and_then bind lex_lt is_set andb negb].
  destruct (Z.gtb_spec h1 h2), (Z.ltb_spec h1 h2), (Z.eqb_spec h1 h2);
    try lia; cbn [bind andb orb]; try reflexivity.
  destruct (Z.geb_spec n1 n2), (Z.ltb_spec n1 n2);
    try lia; rewrite ?andb_false_r; cbn [bind andb orb]; try reflexivity.
Qed.

(** Two bare hours: an interval exactly when the first is smaller; two
    equal bare hours are rejected. *)
Lemma ruleTODTOD_bare_hours (ts : datetime) (t1 t2 : Time) (h1 h2 : Z) :
  hour t1 = Some h1 -> minute t1 = None ->
  hour t2 = Some h2 -> minute t2 = None ->
  ruleTODTOD ts t1 t2 =
  Ret (if h1 <? h2 then Some (mkInterval (Some t1) (Some t2)) else None).
Proof.
  intros Hh1 Hn1 Hh2 Hn2. unfold ruleTODTOD.
  rewrite Hh1, Hn1, Hh2, Hn2.
  cbn [py_gt py_ge py_eq and_then bind lex_lt is_set andb negb].
  destruct (Z.gtb_spec h1 h2), (Z.ltb_spec h1 h2), (Z.eqb_spec h1 h2);
    try lia; cbn [bind andb orb]; try reflexivity.
Qed.

(** C9 at "6:30 - 6 Uhr".  [ruleHHMM] reads "6:30" as 6:30 and
    [ruleHHOClock] reads "6 Uhr" as the bare hour 6.  [ruleTODTOD] joins
    them into an interval from 6:30 to 6, whose left endpoint is later
    than its right one, while in the other order, from 6 to 6:30, it
    returns [None]: the test commented "6:30 - 6?" in the source holds
    when the first minute is unset, not the second. *)
Theorem ruleTODTOD_half_past_six_to_six (ts : datetime) :
  ruleHHMM ts (mkHHMMMatch "6" (Some "30"%string) None)
    = Ret (Some half_past_six) /\
  ruleHHOClock ts "6" = Ret (Some six) /\
  ruleTODTOD ts half_past_six six =
    Ret (Some (mkInterval (Some half_past_six) (Some six))) /\
  tod_minutes six < tod_minutes half_past_six /\
  ruleTODTOD ts six half_past_six = Ret None.
Proof. repeat split. Qed.

(** ** The scorer *)

Lemma R_truediv_pos (a b : Z) :
  0 < a -> 0 < b -> (0 < IZR a / IZR b)%R.
Proof.
  intros Ha Hb. apply Rdiv_lt_0_compat; apply IZR_lt; assumption.
Qed.

Lemma R_ln_le (x y : R) : (0 < x)%R -> (x <= y)%R -> (ln x <= ln y)%R.
Proof.
  intros Hx [Hlt | Heq]; [|rewrite Heq; apply Rle_refl].
  left. now apply ln_increasing.
Qed.

(** The real numbers satisfy what is assumed of the order of floats. *)
#[global] Instance R_PyFloatOrder : PyFloatOrder R.
Proof.
  split.
  - intros a b Ha Hb. simpl. unfold R_flog_dom.
    destruct (Rlt_dec 0 (IZR a / IZR b)) as [|Hn]; [reflexivity|].
    exfalso. apply Hn. now apply R_truediv_pos.
  - intros a a' b Ha Hle Hb. simpl. unfold Rdiv.
    apply Rmult_le_compat_r.
    + left. apply Rinv_0_lt_compat. now apply IZR_lt.
    + now apply IZR_le.
  - intros x y Hx Hle. simpl in *. unfold R_flog_dom in Hx.
    destruct (Rlt_dec 0 x) as [Hpos|]; [|discriminate].
    now apply R_ln_le.
  - intros m x y Hle. simpl in *. now apply Rplus_le_compat_l.
Qed.

Section ScorerFacts.

Context {F : Type} `{PyFloat F}.
Variable RuleId : Type.
Variable str : RuleId -> string.
Variable predict_log_proba : list string -> F * F.

Lemma score_eq (txt : string) (ts : datetime) (pp : PartialParse RuleId)
    (first last : Production) :
  getitem_first (prod pp) = Ret first ->
  getitem_last (prod pp) = Ret last ->
  len txt <> 0 ->
  flog_dom (truediv (mend last - mstart first) (len txt)) = true ->
  score str predict_log_proba txt ts pp =
  Ret (fadd (model_log_odds str predict_log_proba (rules pp))
         (flog (truediv (mend last - mstart first) (len txt)))).
Proof.
  intros Hf Hl Hn Hd. unfold score, py_truediv, math_log.
  rewrite Hl, Hf. cbn [bind].
  destruct (Z.eqb_spec (len txt) 0) as [E|_]; [contradiction|].
  cbn [bind]. rewrite Hd. reflexivity.
Qed.

Lemma score_final_eq (txt : string) (ts : datetime)
    (pp : PartialParse RuleId) (len_prod : Z) :
  len txt <> 0 ->
  flog_dom (truediv len_prod (len txt)) = true ->
  score_final str predict_log_proba txt ts pp len_prod =
  Ret (fadd (model_log_odds str predict_log_proba (rules pp))
         (flog (truediv len_prod (len txt)))).
Proof.
  intros Hn Hd. unfold score_final, py_truediv, math_log.
  destruct (Z.eqb_spec (len txt) 0) as [E|_]; [contradiction|].
  cbn [bind]. rewrite Hd. reflexivity.
Qed.

(** Outside the domain of the logarithm, and on an empty text or an empty
    parse, the scorer raises. *)
Lemma score_empty_text (ts : datetime) (pp : PartialParse RuleId)
    (first last : Production) :
  getitem_first (prod pp) = Ret first ->
  getitem_last (prod pp) = Ret last ->
  score str predict_log_proba EmptyString ts pp = Raise ZeroDivisionError.
Proof.
  intros Hf Hl. unfold score. rewrite Hl, Hf. reflexivity.
Qed.

Lemma score_empty_parse (txt : string) (ts : datetime)
    (rs : list RuleId) :
  score str predict_log_proba txt ts (mkPartialParse [] rs)
  = Raise IndexError.
Proof. reflexivity. Qed.

End ScorerFacts.

(** C4.  Where the logarithm is defined, [score txt ts pp] is the model
    term added to [log(covered_chars / len(txt))], [covered_chars] being
    the [mend] of the last production of [pp] minus the [mstart] of its
    first; the model term is the log-odds that the model gives to the
    sequence of rule identifiers of [pp], a function of that sequence
    alone, neither of [txt] nor of [ts].  [score_final] is the same with
    [log(len(prod) / len(txt))], [prod] the final production. *)
Theorem score_is_model_plus_coverage {F : Type} `{PyFloat F}
    (RuleId : Type) (str : RuleId -> string)
    (predict_log_proba : list string -> F * F)
    (txt : string) (ts : datetime) (pp : PartialParse RuleId)
    (first last : Production) (len_prod : Z) :
  getitem_first (prod pp) = Ret first ->
  getitem_last (prod pp) = Ret last ->
  len txt <> 0 ->
  flog_dom (truediv (mend last - mstart first) (len txt)) = true ->
  flog_dom (truediv len_prod (len txt)) = true ->
  score str predict_log_proba txt ts pp =
    Ret (fadd (model_log_odds str predict_log_proba (rules pp))
           (flog (truediv (mend last - mstart first) (len txt)))) /\
  score_final str predict_log_proba txt ts pp len_prod =
    Ret (fadd (model_log_odds str predict_log_proba (rules pp))
           (flog (truediv len_prod (len txt)))).
Proof.
  intros Hf Hl Hn Hd Hd'. split.
  - now apply score_eq.
  - now apply score_final_eq.
Qed.

Lemma score_is_model_plus_coverage_witness :
  score (fun r => r) example_model example_txt ts0 example_pp1 =
    Ret (fadd (model_log_odds (fun r => r) example_model (rules example_pp1))
           (flog (truediv 6 14))) /\
  score_final (fun r => r) example_model example_txt ts0 example_pp1 10 =
    Ret (fadd (model_log_odds (fun r => r) example_model (rules example_pp1))
           (flog (truediv 10 14))).
Proof.
  apply (score_is_model_plus_coverage string (fun r => r) example_model
           example_txt ts0 example_pp1 (mkProduction 3 9) (mkProduction 3 9)
           10).
  - reflexivity.
  - reflexivity.
  - discriminate.
  - apply truediv_pos; reflexivity.
  - apply truediv_pos; reflexivity.
Defined.

(** C8.  For one text and two partial parses with the same rule sequence,
    the parse whose positive count of covered characters is larger has an
    equal or higher [score], and the final production of larger positive
    length an equal or higher [score_final]: both scores exist and are in
    that order, over every float arithmetic whose order satisfies
    [PyFloatOrder]. *)
Theorem score_monotone_in_coverage {F : Type} `{PyFloatOrder F}
    (RuleId : Type) (str : RuleId -> string)
    (predict_log_proba : list string -> F * F)
    (txt : string) (ts : datetime) (pp1 pp2 : PartialParse RuleId)
    (first1 last1 first2 last2 : Production) (len1 len2 : Z) :
  rules pp1 = rules pp2 ->
  getitem_first (prod pp1) = Ret first1 ->
  getitem_last (prod pp1) = Ret last1 ->
  getitem_first (prod pp2) = Ret first2 ->
  getitem_last (prod pp2) = Ret last2 ->
  0 < len txt ->
  0 < mend last1 - mstart first1 <= mend last2 - mstart first2 ->
  0 < len1 <= len2 ->
  (exists s1 s2,
     score str predict_log_proba txt ts pp1 = Ret s1 /\
     score str predict_log_proba txt ts pp2 = Ret s2 /\
     fle s1 s2) /\
  (exists f1 f2,
     score_final str predict_log_proba txt ts pp1 len1 = Ret f1 /\
     score_final str predict_log_proba txt ts pp2 len2 = Ret f2 /\
     fle f1 f2).
Proof.
  intros Hr Hf1 Hl1 Hf2 Hl2 Hn Hc Hlen. split.
  - eexists. eexists. split; [|split].
    + apply (score_eq _ _ _ _ _ _ first1 last1); try assumption; [lia|].
      apply truediv_pos; lia.
    + apply (score_eq _ _ _ _ _ _ first2 last2); try assumption; [lia|].
      apply truediv_pos; lia.
    + rewrite Hr. apply fadd_mono, flog_mono.
      * apply truediv_pos; lia.
      * apply truediv_mono; lia.
  - eexists. eexists. split; [|split].
    + apply score_final_eq; [lia|]. apply truediv_pos; lia.
    + apply score_final_eq; [lia|]. apply truediv_pos; lia.
    + rewrite Hr. apply fadd_mono, flog_mono.
      * apply truediv_pos; lia.
      * apply truediv_mono; lia.
Qed.

Lemma score_monotone_in_coverage_witness :
  (exists s1 s2 : R,
     score (fun r => r) example_model example_txt ts0 example_pp1 = Ret s1 /\
     score (fun r => r) example_model example_txt ts0 example_pp2 = Ret s2 /\
     fle s1 s2) /\
  (exists f1 f2 : R,
     score_final (fun r => r) example_model example_txt ts0 example_pp1 6
       = Ret f1 /\
     score_final (fun r => r) example_model example_txt ts0 example_pp2 9
       = Ret f2 /\
     fle f1 f2).
Proof.
  apply (score_monotone_in_coverage string (fun r => r) example_model
           example_txt ts0 example_pp1 example_pp2
           (mkProduction 3 9) (mkProduction 3 9)
           (mkProduction 0 9) (mkProduction 0 9) 6 9).
  - reflexivity.
  - reflexivity.
  - reflexivity.
  - reflexivity.
  - reflexivity.
  - reflexivity.
  - simpl. lia.
  - lia.
Defined.

(** ** [ruleAtDOW] and [ruleNextDOW] *)

Lemma same_date_add_days (ts : datetime) (y m d j : Z) :
  valid_datetime ts = true ->
  valid_datetime (with_date ts y m d) = true ->
  ymd2ord y m d = toordinal ts + j -> 0 < j ->
  same_date (with_date ts y m d) ts = false /\
  dt_le (with_date ts y m d) ts = false.
Proof.
  intros Hv Hv1 Ho Hj. split.
  - unfold same_date. simpl.
    destruct (Z.eqb_spec y (dt_year ts)) as [->|]; [|reflexivity].
    destruct (Z.eqb_spec m (dt_month ts)) as [->|]; [|reflexivity].
    destruct (Z.eqb_spec d (dt_day ts)) as [->|]; [|reflexivity].
    unfold toordinal in Ho. lia.
  - destruct (dt_le (with_date ts y m d) ts) eqn:Hle; [|reflexivity].
    apply dt_le_toordinal in Hle; try assumption.
    unfold toordinal at 1 in Hle. simpl in Hle. lia.
Qed.

Lemma same_date_refl (t : datetime) : same_date t t = true.
Proof. unfold same_date. now rewrite !Z.eqb_refl. Qed.

Lemma weekdays_getitem_range (i wd : Z) :
  weekdays_getitem i = Ret wd -> 0 <= wd <= 6.
Proof.
  unfold weekdays_getitem.
  destruct (Z.leb_spec 0 i), (Z.ltb_spec i 7); simpl;
    try (intros [= <-]; lia);
    destruct (Z.leb_spec (-7) i), (Z.ltb_spec i 0); simpl;
    try discriminate; intros [= <-]; lia.
Qed.

(** X1.  For every valid reference timestamp and every entity,
    [ruleAtDOW], which compares dates, and [ruleLatentDOW], which compares
    instants, return the same result, exceptions included: "on Monday" and
    a bare "Monday" are grounded alike. *)
Theorem ruleAtDOW_is_ruleLatentDOW (ts : datetime) (dow : Time) :
  valid_datetime ts = true ->
  ruleAtDOW ts dow = ruleLatentDOW ts dow.
Proof.
  intros Hv. unfold ruleAtDOW, ruleLatentDOW.
  destruct (rd_of_weekday (DOW dow)) as [wd|e] eqn:Ewd; [|reflexivity].
  cbn [bind]. rewrite (radd_days ts Hv). rewrite (add_days_0 ts Hv).
  cbn [bind].
  destruct wd as [w|].
  - assert (Hw : 0 <= w <= 6).
    { unfold rd_of_weekday in Ewd. destruct (DOW dow) as [i|];
        [|discriminate].
      destruct (weekdays_getitem i) as [w'|] eqn:Ei; [|discriminate].
      cbn [bind] in Ewd. injection Ewd as <-.
      now apply (weekdays_getitem_range i). }
    pose proof (toordinal_range ts Hv) as Hts.
    pose proof (weekday_range ts) as Hwt.
    set (j := (7 - weekday ts + w) mod 7).
    assert (Hj : 0 <= j <= 6).
    { subst j. pose proof (Z.mod_pos_bound (7 - weekday ts + w) 7). lia. }
    destruct (Z_le_gt_dec (toordinal ts + j) MAXORDINAL) as [Hin|Hout].
    + destruct (add_days_valid ts Hv j ltac:(lia))
        as (y1 & m1 & d1 & Ha & Hv1 & Ho1).
      cbn [bind]. fold j. rewrite Ha. cbn [bind].
      destruct (Z.eq_dec j 0) as [Hj0|Hj0].
      * assert (Edm : with_date ts y1 m1 d1 = ts).
        { rewrite Hj0, Z.add_0_r in Ho1.
          destruct (valid_fields ts Hv) as (_ & Hm & Hd & _).
          destruct (valid_fields _ Hv1) as (_ & Hm1 & Hd1 & _).
          simpl in Hm1, Hd1.
          apply ymd2ord_inj in Ho1; try assumption.
          destruct Ho1 as (-> & -> & ->). destruct ts; reflexivity. }
        rewrite Edm, dt_le_refl, same_date_refl. reflexivity.
      * destruct (same_date_add_days ts y1 m1 d1 j Hv Hv1 Ho1 ltac:(lia))
          as [-> ->]. reflexivity.
    + cbn [bind]. fold j.
      rewrite (add_days_overflow ts j ltac:(lia)). reflexivity.
  - cbn [bind]. rewrite dt_le_refl, same_date_refl. reflexivity.
Qed.

Lemma ruleAtDOW_is_ruleLatentDOW_witness :
  ruleAtDOW (march_10_2022 9 30 0 0) (Time_dow 3)
  = ruleLatentDOW (march_10_2022 9 30 0 0) (Time_dow 3).
Proof.
  apply (ruleAtDOW_is_ruleLatentDOW (march_10_2022 9 30 0 0) (Time_dow 3)).
  reflexivity.
Defined.

(** X2.  For a valid reference timestamp with thirteen more days in the
    calendar and a weekday [w] of 0..6, [ruleNextDOW] returns the date of
    the first day of weekday [w] that is at least seven days after the date
    of [ts]: a date with weekday [w], 7 to 13 days after it. *)
Theorem ruleNextDOW_second_week (ts : datetime) (w : Z) :
  valid_datetime ts = true ->
  0 <= w <= 6 ->
  toordinal ts + 13 <= MAXORDINAL ->
  exists y m d,
    ruleNextDOW ts (Time_dow w) = Ret (Some (Time_date y m d)) /\
    valid_date y m d = true /\
    weekday_of_ord (ymd2ord y m d) = w /\
    toordinal ts + 7 <= ymd2ord y m d <= toordinal ts + 13.
Proof.
  intros Hv Hw Hr.
  pose proof (toordinal_range ts Hv) as Hts.
  unfold ruleNextDOW. simpl rd_of_weekday. unfold weekdays_getitem.
  replace (0 <=? w) with true by (symmetry; apply Z.leb_le; lia).
  replace (w <? 7) with true by (symmetry; apply Z.ltb_lt; lia).
  cbn [andb bind]. rewrite (radd_days ts Hv).
  destruct (add_days_valid ts Hv 7 ltac:(lia))
    as (y1 & m1 & d1 & Ha & Hv1 & Ho1).
  rewrite Ha. cbn [bind].
  set (r := with_date ts y1 m1 d1) in *.
  assert (Hor : toordinal r = toordinal ts + 7) by exact Ho1.
  set (j := (7 - weekday r + w) mod 7).
  assert (Hj : 0 <= j <= 6).
  { subst j. pose proof (Z.mod_pos_bound (7 - weekday r + w) 7). lia. }
  destruct (add_days_valid r Hv1 j ltac:(lia))
    as (y & m & d & Ha2 & Hv2 & Ho2).
  rewrite Ha2. cbn [bind]. exists y, m, d.
  split; [reflexivity|]. split.
  { apply valid_datetime_iff in Hv2. tauto. }
  rewrite Ho2. split; [|lia].
  subst j. apply weekday_jump. exact Hw.
Qed.

Lemma ruleNextDOW_second_week_witness :
  exists y m d,
    ruleNextDOW ts0 (Time_dow 3) = Ret (Some (Time_date y m d)) /\
    valid_date y m d = true /\
    weekday_of_ord (ymd2ord y m d) = 3 /\
    toordinal ts0 + 7 <= ymd2ord y m d <= toordinal ts0 + 13.
Proof.
  apply (ruleNextDOW_second_week ts0 3).
  - reflexivity.
  - lia.
  - vm_compute. discriminate.
Defined.

(** ** Days and ends of periods relative to the reference instant *)

Lemma prev_day_spec (y m d : Z) :
  1 <= m <= 12 -> 1 <= d <= days_in_month y m ->
  let '(y', m', d') := prev_day y m d in
  1 <= m' <= 12 /\ 1 <= d' <= days_in_month y' m' /\
  ymd2ord y' m' d' = ymd2ord y m d - 1.
Proof.
  intros Hm Hd. unfold prev_day.
  destruct (Z.ltb_spec 1 d) as [Hlt|Hge].
  - unfold ymd2ord. repeat split; lia.
  - assert (d = 1) as -> by lia.
    destruct (Z.ltb_spec 1 m) as [Hm1|Hm1].
    + pose proof (days_in_month_bounds y (m - 1) ltac:(lia)).
      split; [lia|]. split; [lia|].
      pose proof (days_before_month_mono y (m - 1) m ltac:(lia) Hm ltac:(lia)).
      pose proof (next_day_spec y (m - 1) (days_in_month y (m - 1))
                    ltac:(lia) ltac:(lia)) as Hn.
      unfold next_day in Hn. rewrite Z.ltb_irrefl in Hn.
      replace (m - 1 <? 12) with true in Hn by (symmetry; lia).
      replace (m - 1 + 1) with m in Hn by lia. lia.
    + assert (m = 1) as -> by lia.
      pose proof (next_day_spec (y - 1) 12 31 ltac:(lia)
                    ltac:(rewrite days_in_month_alt; simpl; lia)) as Hn.
      unfold next_day in Hn.
      replace (31 <? days_in_month (y - 1) 12) with false in Hn
        by (rewrite days_in_month_alt; simpl; reflexivity).
      simpl in Hn. replace (y - 1 + 1) with y in Hn by lia.
      rewrite days_in_month_alt. simpl. lia.
Qed.

Lemma add_days_underflow (t : datetime) (n : Z) :
  toordinal t + n <= 0 -> add_days t n = Raise OverflowError.
Proof.
  intros Hr. unfold add_days.
  replace (0 <? toordinal t + n) with false by (symmetry; lia).
  reflexivity.
Qed.

(** X3.  [ruleYesterday], [ruleToday] and [ruleTomorrow] return three
    consecutive dates, the day before the date of [ts], that date and the
    day after it, whatever the time of day of [ts], when [ts] is neither
    the first nor the last day of the calendar. *)
Theorem yesterday_today_tomorrow (ts : datetime) :
  valid_datetime ts = true ->
  2 <= toordinal ts -> toordinal ts + 1 <= MAXORDINAL ->
  ruleYesterday ts =
    Ret (Some (let '(y, m, d) :=
                 prev_day (dt_year ts) (dt_month ts) (dt_day ts) in
               Time_date y m d)) /\
  ruleToday ts =
    Ret (Some (Time_date (dt_year ts) (dt_month ts) (dt_day ts))) /\
  ruleTomorrow ts =
    Ret (Some (let '(y, m, d) :=
                 next_day (dt_year ts) (dt_month ts) (dt_day ts) in
               Time_date y m d)) /\
  (let '(y, m, d) := prev_day (dt_year ts) (dt_month ts) (dt_day ts) in
   ymd2ord y m d = toordinal ts - 1) /\
  (let '(y, m, d) := next_day (dt_year ts) (dt_month ts) (dt_day ts) in
   ymd2ord y m d = toordinal ts + 1).
Proof.
  intros Hv Hlo Hhi.
  destruct (valid_fields ts Hv) as (_ & Hm & Hd & _).
  pose proof (prev_day_spec _ _ _ Hm Hd) as Hp.
  pose proof (next_day_spec _ _ _ Hm Hd) as Hn.
  split; [|split; [reflexivity|split; [|split]]].
  - unfold ruleYesterday. rewrite (radd_days ts Hv).
    destruct (prev_day _ _ _) as [[y m] d]. destruct Hp as (Hm' & Hd' & Ho).
    rewrite (add_days_ord ts (-1) y m d).
    + reflexivity.
    + lia.
    + unfold toordinal. replace (ymd2ord (dt_year ts) (dt_month ts) (dt_day ts) + -1)
        with (ymd2ord y m d) by lia.
      now apply ord2ymd_ymd2ord.
  - unfold ruleTomorrow. rewrite (radd_day1 ts Hv Hhi). cbn [bind].
    unfold roll_day. destruct (next_day _ _ _) as [[y m] d]. reflexivity.
  - destruct (prev_day _ _ _) as [[y m] d]. unfold toordinal. tauto.
  - destruct (next_day _ _ _) as [[y m] d]. unfold toordinal. tauto.
Qed.

Lemma yesterday_today_tomorrow_witness :
  ruleYesterday (mkdatetime 2024 3 1 12 0 0 0)
    = Ret (Some (Time_date 2024 2 29)) /\
  ruleTomorrow (mkdatetime 2024 3 1 12 0 0 0)
    = Ret (Some (Time_date 2024 3 2)).
Proof.
  destruct (yesterday_today_tomorrow (mkdatetime 2024 3 1 12 0 0 0))
    as (Hy & _ & Ht & _).
  - reflexivity.
  - vm_compute. discriminate.
  - vm_compute. discriminate.
  - split; [exact Hy|exact Ht].
Defined.

(** X4.  On 9999-12-31 [ruleTomorrow] raises [OverflowError], and on
    0001-01-01 [ruleYesterday] does: neither returns a date nor [None]. *)
Theorem tomorrow_yesterday_at_the_ends (ts : datetime) :
  valid_datetime ts = true ->
  (toordinal ts = MAXORDINAL -> ruleTomorrow ts = Raise OverflowError) /\
  (toordinal ts = 1 -> ruleYesterday ts = Raise OverflowError).
Proof.
  intros Hv. split; intros Ho.
  - unfold ruleTomorrow. rewrite (radd_days ts Hv).
    rewrite add_days_overflow by lia. reflexivity.
  - unfold ruleYesterday. rewrite (radd_days ts Hv).
    rewrite add_days_underflow by lia. reflexivity.
Qed.

Lemma tomorrow_yesterday_at_the_ends_witness :
  ruleTomorrow (mkdatetime 9999 12 31 8 0 0 0) = Raise OverflowError /\
  ruleYesterday (mkdatetime 1 1 1 8 0 0 0) = Raise OverflowError.
Proof.
  split.
  - apply (tomorrow_yesterday_at_the_ends (mkdatetime 9999 12 31 8 0 0 0));
      reflexivity.
  - apply (tomorrow_yesterday_at_the_ends (mkdatetime 1 1 1 8 0 0 0));
      reflexivity.
Defined.

(** X5.  [ruleEOM] returns the last day of the month of [ts], the 29th
    for the February of a leap year; in December 9999 it raises
    [ValueError], since it goes through the first day of the next month. *)
Theorem ruleEOM_last_day_of_month (ts : datetime) :
  valid_datetime ts = true ->
  (dt_year ts < MAXYEAR \/ dt_month ts < 12 ->
   ruleEOM ts =
   Ret (Some (Time_date (dt_year ts) (dt_month ts)
                (days_in_month (dt_year ts) (dt_month ts))))) /\
  (dt_year ts = MAXYEAR -> dt_month ts = 12 ->
   ruleEOM ts = Raise ValueError).
Proof.
  intros Hv.
  destruct (valid_fields ts Hv) as (Hy & Hm & Hd & (Hh & Hmi & _)).
  pose proof (days_in_month_bounds (dt_year ts) (dt_month ts) Hm) as Hdim.
  unfold MAXYEAR. split.
  - intros Hr. unfold ruleEOM, radd. simpl. rewrite Z.add_0_r.
    pose proof (next_day_spec (dt_year ts) (dt_month ts)
                  (days_in_month (dt_year ts) (dt_month ts)) Hm ltac:(lia))
      as Hn.
    unfold next_day in Hn. rewrite Z.ltb_irrefl in Hn.
    destruct (Z.ltb_spec (dt_month ts) 12) as [Hlt|Hge].
    + replace (dt_month ts + 1 >? 12) with false by (symmetry; lia).
      replace (dt_month ts + 1 <? 1) with false by (symmetry; lia).
      simpl. rewrite monthrange_ok by lia. simpl.
      pose proof (days_in_month_bounds (dt_year ts) (dt_month ts + 1)
                    ltac:(lia)).
      rewrite Z.min_r by lia.
      destruct (replace_ok ts Hv (dt_year ts) (dt_month ts + 1) 1
                  None None Hy ltac:(lia) ltac:(lia) Hh Hmi) as [Hrep Hvr].
      rewrite Hrep. cbn [bind].
      rewrite (add_days_ord _ (-1) (dt_year ts) (dt_month ts)
                 (days_in_month (dt_year ts) (dt_month ts))).
      * reflexivity.
      * pose proof (toordinal_range _ Hvr). unfold toordinal in *.
        simpl in *. pose proof (toordinal_range ts Hv) as Hts.
        unfold toordinal in Hts. unfold ymd2ord in *. lia.
      * unfold toordinal. simpl.
        replace (ymd2ord (dt_year ts) (dt_month ts + 1) 1 + -1)
          with (ymd2ord (dt_year ts) (dt_month ts)
                  (days_in_month (dt_year ts) (dt_month ts))) by lia.
        apply ord2ymd_ymd2ord; lia.
    + replace (dt_month ts + 1 >? 12) with true by (symmetry; lia).
      simpl. assert (Hm12 : dt_month ts = 12) by lia.
      rewrite Hm12 in *. change (12 + 1 - 12) with 1.
      rewrite monthrange_ok by lia. simpl.
      pose proof (days_in_month_bounds (dt_year ts + 1) 1 ltac:(lia)).
      rewrite Z.min_r by lia.
      destruct (replace_ok ts Hv (dt_year ts + 1) 1 1
                  None None ltac:(lia) ltac:(lia) ltac:(lia) Hh Hmi)
        as [Hrep Hvr].
      rewrite Hrep. cbn [bind].
      rewrite (add_days_ord _ (-1) (dt_year ts) 12
                 (days_in_month (dt_year ts) 12)).
      * reflexivity.
      * pose proof (toordinal_range _ Hvr) as Hr1.
        pose proof (ymd2ord_range (dt_year ts) 12
                      (days_in_month (dt_year ts) 12)
                      ltac:(apply valid_date_iff; lia)) as Hr2.
        unfold toordinal in *. simpl in *. lia.
      * unfold toordinal. simpl.
        replace (ymd2ord (dt_year ts + 1) 1 1 + -1)
          with (ymd2ord (dt_year ts) 12 (days_in_month (dt_year ts) 12))
          by lia.
        apply ord2ymd_ymd2ord; lia.
  - intros Ey Em. unfold ruleEOM, radd. simpl. rewrite Ey, Em. simpl.
    unfold replace, valid_datetime, valid_date. simpl. reflexivity.
Qed.

Lemma ruleEOM_last_day_of_month_witness :
  ruleEOM (mkdatetime 2024 2 10 8 0 0 0) = Ret (Some (Time_date 2024 2 29)) /\
  ruleEOM (mkdatetime 9999 12 10 8 0 0 0) = Raise ValueError.
Proof.
  split.
  - apply (ruleEOM_last_day_of_month (mkdatetime 2024 2 10 8 0 0 0));
      [reflexivity|]. left. reflexivity.
  - apply (ruleEOM_last_day_of_month (mkdatetime 9999 12 10 8 0 0 0));
      reflexivity.
Defined.

(** X6.  [ruleEOY] returns the 31st of December of the year of [ts]; in
    the year 9999 it raises [ValueError], since it goes through the first
    day of the next year. *)
Theorem ruleEOY_last_day_of_year (ts : datetime) :
  valid_datetime ts = true ->
  (dt_year ts < MAXYEAR ->
   ruleEOY ts = Ret (Some (Time_date (dt_year ts) 12 31))) /\
  (dt_year ts = MAXYEAR -> ruleEOY ts = Raise ValueError).
Proof.
  intros Hv.
  destruct (valid_fields ts Hv) as (Hy & Hm & Hd & (Hh & Hmi & _)).
  unfold MAXYEAR. split.
  - intros Hr. unfold ruleEOY, radd. simpl.
    pose proof (next_day_spec (dt_year ts) 12 31 ltac:(lia)
                  ltac:(rewrite days_in_month_alt; simpl; lia)) as Hn.
    unfold next_day in Hn.
    replace (31 <? days_in_month (dt_year ts) 12) with false in Hn
      by (rewrite days_in_month_alt; simpl; reflexivity).
    simpl in Hn.
    pose proof (days_in_month_bounds (dt_year ts + 1) 1 ltac:(lia)).
    rewrite Z.min_r by lia.
    destruct (replace_ok ts Hv (dt_year ts + 1) 1 1
                None None ltac:(lia) ltac:(lia) ltac:(lia) Hh Hmi)
      as [Hrep Hvr].
    rewrite Hrep. cbn [bind].
    rewrite (add_days_ord _ (-1) (dt_year ts) 12 31).
    + reflexivity.
    + pose proof (toordinal_range _ Hvr) as Hr1.
      pose proof (ymd2ord_range (dt_year ts) 12 31
                    ltac:(apply valid_date_iff; rewrite days_in_month_alt;
                          simpl; lia)) as Hr2.
      unfold toordinal in *. simpl in *. lia.
    + unfold toordinal. simpl.
      replace (ymd2ord (dt_year ts + 1) 1 1 + -1)
        with (ymd2ord (dt_year ts) 12 31) by lia.
      apply ord2ymd_ymd2ord; [lia|].
      rewrite days_in_month_alt. simpl. lia.
  - intros Ey. unfold ruleEOY, radd. simpl. rewrite Ey. simpl.
    unfold replace, valid_datetime, valid_date. simpl. reflexivity.
Qed.

Lemma ruleEOY_last_day_of_year_witness :
  ruleEOY ts0 = Ret (Some (Time_date 2022 12 31)) /\
  ruleEOY (mkdatetime 9999 6 1 0 0 0 0) = Raise ValueError.
Proof.
  split.
  - apply (ruleEOY_last_day_of_year ts0); reflexivity.
  - apply (ruleEOY_last_day_of_year (mkdatetime 9999 6 1 0 0 0 0));
      reflexivity.
Defined.

Lemma dt_le_with_time (ts : datetime) (h mi : Z) :
  dt_le (with_time ts h mi) ts =
  (h <? dt_hour ts) || ((h =? dt_hour ts) && (mi <=? dt_minute ts)).
Proof.
  unfold dt_le, dt_key. simpl.
  rewrite !Z.ltb_irrefl, !Z.eqb_refl. simpl.
  destruct (Z.ltb_spec h (dt_hour ts)), (Z.eqb_spec h (dt_hour ts));
    simpl; try reflexivity.
  destruct (Z.ltb_spec mi (dt_minute ts)), (Z.eqb_spec mi (dt_minute ts)),
    (Z.leb_spec mi (dt_minute ts)); simpl; try reflexivity; lia.
Qed.

Lemma dt_le_with_date (ts : datetime) (m d : Z) :
  dt_le (with_date ts (dt_year ts) m d) ts =
  (m <? dt_month ts) || ((m =? dt_month ts) && (d <=? dt_day ts)).
Proof.
  unfold dt_le, dt_key. simpl.
  rewrite !Z.ltb_irrefl, !Z.eqb_refl. simpl.
  destruct (Z.ltb_spec m (dt_month ts)), (Z.eqb_spec m (dt_month ts));
    simpl; try reflexivity.
  destruct (Z.ltb_spec d (dt_day ts)), (Z.eqb_spec d (dt_day ts)),
    (Z.leb_spec d (dt_day ts)); simpl; try reflexivity; lia.
Qed.

(** X7.  [ruleLatentPOD] grounds a part of day on the date of [ts]
    exactly when its first hour in [pod_hours] is later than the hour of
    [ts], and on the next day otherwise, also when the part of day has
    begun and is not over; the tag is kept. *)
Theorem ruleLatentPOD_today_or_tomorrow (ts : datetime) (pod : Time)
    (p : string) (hours : Z * Z) :
  valid_datetime ts = true -> dt_year ts < MAXYEAR ->
  POD pod = Some p -> dict_get pod_hours p = Some hours ->
  ruleLatentPOD ts pod =
  Ret (Some (Time_of_date_pod (Some p)
               (if fst hours <=? dt_hour ts then roll_day ts else ts))).
Proof.
  intros Hv Hy Hpod Hget.
  destruct (ruleLatentPOD_roll ts Hv Hy pod p hours Hpod Hget) as [Hr _].
  rewrite Hr, Hpod. rewrite dt_le_with_time, Z.leb_refl, andb_true_r.
  destruct (Z.ltb_spec (fst hours) (dt_hour ts)),
    (Z.eqb_spec (fst hours) (dt_hour ts)),
    (Z.leb_spec (fst hours) (dt_hour ts)); try lia; simpl;
    unfold Time_of_date_pod, roll_day; simpl;
    try destruct (next_day _ _ _) as [[y m] d]; reflexivity.
Qed.

Lemma ruleLatentPOD_today_or_tomorrow_witness :
  ruleLatentPOD (march_10_2022 17 45 0 0) (Time_pod "evening")
  = Ret (Some (mkTime (Some 2022) (Some 3) (Some 11) None None None
                      (Some "evening"%string))).
Proof.
  apply (ruleLatentPOD_today_or_tomorrow (march_10_2022 17 45 0 0)
           (Time_pod "evening") "evening" (17, 19)); reflexivity.
Defined.

(** ** More on the grounding rules *)

Lemma next_day_later (y m d : Z) (rest rest' : list Z) :
  let '(y', m', d') := next_day y m d in
  lex_lt (y :: m :: d :: rest) (y' :: m' :: d' :: rest') = true.
Proof.
  unfold next_day.
  destruct (d <? days_in_month y m); [|destruct (m <? 12)]; simpl.
  - rewrite !Z.ltb_irrefl, !Z.eqb_refl. simpl.
    replace (d <? d + 1) with true by (symmetry; lia). reflexivity.
  - rewrite Z.ltb_irrefl, Z.eqb_refl. simpl.
    replace (m <? m + 1) with true by (symmetry; lia). reflexivity.
  - replace (y <? y + 1) with true by (symmetry; lia). reflexivity.
Qed.

(** X8.  [ruleLatentTOD] returns the hour and minute asked for, on the
    date of [ts] or on the next day, and the date and time returned are
    later than those of [ts], read to the minute: a time equal to that of
    [ts] is grounded on the next day. *)
Theorem ruleLatentTOD_in_the_future (ts : datetime) (tod : Time) (h : Z) :
  valid_datetime ts = true -> dt_year ts < MAXYEAR ->
  hour tod = Some h -> 0 <= h <= 23 -> 0 <= py_or (minute tod) 0 <= 59 ->
  exists y m d,
    ruleLatentTOD ts tod =
      Ret (Some (mkTime (Some y) (Some m) (Some d) (Some h)
                        (Some (py_or (minute tod) 0)) None None)) /\
    ((y, m, d) = (dt_year ts, dt_month ts, dt_day ts) \/
     (y, m, d) = next_day (dt_year ts) (dt_month ts) (dt_day ts)) /\
    lex_lt (dt_minute_key ts) [y; m; d; h; py_or (minute tod) 0] = true.
Proof.
  intros Hv Hy Hhour Hh Hmi.
  destruct (ruleLatentTOD_roll ts Hv Hy tod h Hhour Hh Hmi) as [Hr _].
  rewrite Hr. rewrite dt_le_with_time.
  set (mi := py_or (minute tod) 0) in *.
  destruct ((h <? dt_hour ts) || ((h =? dt_hour ts) && (mi <=? dt_minute ts)))
    eqn:Hle.
  - pose proof (next_day_later (dt_year ts) (dt_month ts) (dt_day ts)
                  [dt_hour ts; dt_minute ts] [h; mi]) as Hl.
    unfold roll_day. simpl.
    destruct (next_day _ _ _) as [[y m] d].
    exists y, m, d. split; [reflexivity|]. split; [now right|exact Hl].
  - exists (dt_year ts), (dt_month ts), (dt_day ts).
    split; [reflexivity|]. split; [now left|].
    unfold dt_minute_key. simpl.
    rewrite !Z.ltb_irrefl, !Z.eqb_refl. simpl.
    destruct (Z.ltb_spec h (dt_hour ts)), (Z.eqb_spec h (dt_hour ts)),
      (Z.leb_spec mi (dt_minute ts)); simpl in Hle; try discriminate;
      destruct (Z.ltb_spec (dt_hour ts) h), (Z.eqb_spec (dt_hour ts) h),
        (Z.ltb_spec (dt_minute ts) mi); simpl; try reflexivity; lia.
Qed.

Lemma ruleLatentTOD_in_the_future_witness :
  exists y m d,
    ruleLatentTOD (march_10_2022 9 30 15 0) (Time_tod (Some 9) (Some 30)) =
      Ret (Some (mkTime (Some y) (Some m) (Some d) (Some 9) (Some 30)
                        None None)) /\
    ((y, m, d) = (2022, 3, 10) \/ (y, m, d) = (2022, 3, 11)) /\
    lex_lt [2022; 3; 10; 9; 30] [y; m; d; 9; 30] = true.
Proof.
  apply (ruleLatentTOD_in_the_future (march_10_2022 9 30 15 0)
           (Time_tod (Some 9) (Some 30)) 9);
    try reflexivity; simpl; lia.
Defined.

(** An hour that [datetime] does not have cannot be put into [ts]. *)
Lemma ruleLatentTOD_bad_hour (ts : datetime) (tod : Time)
    (h : Z) :
  valid_datetime ts = true ->
  hour tod = Some h -> h < 0 \/ 23 < h ->
  ruleLatentTOD ts tod = Raise ValueError.
Proof.
  intros Hv Hhour Hh.
  destruct (valid_fields ts Hv) as (Hy & Hm & Hd & _).
  unfold ruleLatentTOD, radd. rewrite Hhour. simpl. rewrite Z.add_0_r.
  rewrite (monthrange_ok _ _ Hm). cbn [bind]. unfold replace.
  match goal with
  | |- context [valid_datetime ?t] => destruct (valid_datetime t) eqn:E
  end; [|reflexivity].
  apply valid_datetime_iff in E. unfold valid_time in E. simpl in E. lia.
Qed.

(** X9.  For "12pm", with or without minutes, [ruleHHMM] returns the
    hour 24, and [ruleLatentTOD] raises [ValueError] on that time for
    every reference timestamp. *)
Theorem noon_pm_cannot_be_grounded (ts : datetime)
    (gm : option string) (ampm : string) :
  valid_datetime ts = true ->
  minute_group_ok gm ->
  String.prefix "p" ampm = true ->
  exists mi,
    ruleHHMM ts (noon_pm_match gm ampm)
      = Ret (Some (Time_tod (Some 24) (Some mi))) /\
    ruleLatentTOD ts (Time_tod (Some 24) (Some mi)) = Raise ValueError.
Proof.
  intros Hv Hm Hp.
  assert (Emi : exists mi,
             match gm with
             | None => Ret 0
             | Some EmptyString => Ret 0
             | Some s => py_int s
             end = Ret mi).
  { destruct gm as [s|]; [|now exists 0].
    destruct s as [|c s]; [now exists 0|].
    destruct Hm as [Hm|Hm]; [discriminate|].
    exact (py_int_digits _ Hm). }
  destruct Emi as [mi Emi]. exists mi. split.
  - unfold ruleHHMM, noon_pm_match. cbn [group_hour group_minute group_ampm].
    change (py_int "12") with (@Ret Z 12). cbn [bind].
    rewrite Emi. cbn [bind]. rewrite Hp.
    destruct (String.prefix "a" ampm) eqn:Ea.
    + rewrite (prefix_a_not_p _ Ea) in Hp. discriminate.
    + reflexivity.
  - apply (ruleLatentTOD_bad_hour ts _ 24 Hv); [reflexivity|lia].
Qed.

Lemma noon_pm_cannot_be_grounded_witness :
  exists mi,
    ruleHHMM ts0 (noon_pm_match (Some "30"%string) "pm")
      = Ret (Some (Time_tod (Some 24) (Some mi))) /\
    ruleLatentTOD ts0 (Time_tod (Some 24) (Some mi)) = Raise ValueError.
Proof.
  apply (noon_pm_cannot_be_grounded ts0 (Some "30"%string) "pm").
  - reflexivity.
  - right. reflexivity.
  - reflexivity.
Defined.

(** X10.  [ruleLatentDOM] returns an existing date that is after the
    date of [ts], never that date itself, in the month of [ts] or in the
    next one, and whose day is at most the day asked for. *)
Theorem ruleLatentDOM_after_today (ts : datetime) (dom : Time) (d : Z) :
  valid_datetime ts = true -> dt_year ts < MAXYEAR ->
  day dom = Some d -> 1 <= d ->
  exists y m d',
    ruleLatentDOM ts dom = Ret (Some (Time_date y m d')) /\
    valid_date y m d' = true /\
    toordinal ts < ymd2ord y m d' /\
    d' <= d /\
    ((y, m) = (dt_year ts, dt_month ts) \/
     (y, m) = next_month (dt_year ts) (dt_month ts)).
Proof.
  intros Hv Hy Hday Hd.
  destruct (ruleLatentDOM_roll ts Hv Hy dom d Hday Hd) as [Hr _].
  destruct (valid_fields ts Hv) as (Hyr & Hm & Hdd & _).
  pose proof (days_in_month_bounds (dt_year ts) (dt_month ts) Hm) as Hdim.
  rewrite Hr. rewrite dt_le_with_date, Z.ltb_irrefl, Z.eqb_refl. simpl.
  set (d0 := Z.min (days_in_month (dt_year ts) (dt_month ts)) d) in *.
  unfold MAXYEAR in Hy.
  destruct (Z.leb_spec d0 (dt_day ts)) as [Hle|Hgt].
  - unfold roll_month, next_month. simpl.
    pose proof (next_day_spec (dt_year ts) (dt_month ts)
                  (days_in_month (dt_year ts) (dt_month ts)) Hm ltac:(lia))
      as Hn.
    unfold next_day in Hn. rewrite Z.ltb_irrefl in Hn.
    destruct (Z.ltb_spec (dt_month ts) 12) as [Hlt|Hge]; simpl.
    + pose proof (days_in_month_bounds (dt_year ts) (dt_month ts + 1)
                    ltac:(lia)).
      eexists _, _, _. split; [reflexivity|].
      cbn [dt_year dt_month dt_day with_date]. subst d0.
      split; [apply valid_date_iff; lia|].
      split; [unfold toordinal, ymd2ord in *; lia|].
      split; [lia|now right].
    + pose proof (days_in_month_bounds (dt_year ts + 1) 1 ltac:(lia)).
      eexists _, _, _. split; [reflexivity|].
      cbn [dt_year dt_month dt_day with_date]. subst d0.
      split; [apply valid_date_iff; lia|].
      split; [unfold toordinal, ymd2ord in *; lia|].
      split; [lia|now right].
  - eexists _, _, _. split; [reflexivity|].
    cbn [dt_year dt_month dt_day with_date]. subst d0.
    split; [apply valid_date_iff; lia|].
    split; [unfold toordinal, ymd2ord; lia|].
    split; [lia|now left].
Qed.

Lemma ruleLatentDOM_after_today_witness :
  exists y m d',
    ruleLatentDOM ts0 (mkTime None None (Some 5) None None None None)
      = Ret (Some (Time_date y m d')) /\
    valid_date y m d' = true /\
    toordinal ts0 < ymd2ord y m d' /\
    d' <= 5 /\
    ((y, m) = (2022, 3) \/ (y, m) = (2022, 4)).
Proof.
  apply (ruleLatentDOM_after_today ts0
           (mkTime None None (Some 5) None None None None) 5);
    try reflexivity; lia.
Defined.

(** X11.  When [ts] is the last day of its month and the day asked for
    is greater, [ruleLatentDOM] returns the day of [ts] in the next month,
    clipped to the length of that month, and not the day asked for: on
    February 28th "the 31st" is March 28th. *)
Theorem ruleLatentDOM_clipped_day_carries_over (ts : datetime) (dom : Time)
    (d : Z) :
  valid_datetime ts = true -> dt_year ts < MAXYEAR ->
  day dom = Some d ->
  dt_day ts = days_in_month (dt_year ts) (dt_month ts) ->
  dt_day ts < d ->
  ruleLatentDOM ts dom =
  Ret (Some (let '(y, m) := next_month (dt_year ts) (dt_month ts) in
             Time_date y m (Z.min (days_in_month y m) (dt_day ts)))).
Proof.
  intros Hv Hy Hday Hlast Hd.
  destruct (valid_fields ts Hv) as (Hyr & Hm & Hdd & _).
  destruct (ruleLatentDOM_roll ts Hv Hy dom d Hday ltac:(lia)) as [Hr _].
  rewrite Hr. rewrite dt_le_with_date, Z.ltb_irrefl, Z.eqb_refl. simpl.
  rewrite Z.min_l by lia. rewrite <- Hlast. rewrite Z.leb_refl.
  unfold roll_month. simpl.
  destruct (next_month _ _) as [y m]. reflexivity.
Qed.

Lemma ruleLatentDOM_clipped_day_carries_over_witness :
  ruleLatentDOM (mkdatetime 2022 2 28 9 0 0 0)
    (mkTime None None (Some 31) None None None None)
  = Ret (Some (Time_date 2022 3 28)).
Proof.
  apply (ruleLatentDOM_clipped_day_carries_over
           (mkdatetime 2022 2 28 9 0 0 0)
           (mkTime None None (Some 31) None None None None) 31);
    try reflexivity; lia.
Defined.

(** X12.  When the year of [ts] is not a leap year, [ruleLatentDOY]
    grounds February 29th on February 28th, of this year or of the next
    one, also when the next year is a leap year. *)
Theorem ruleLatentDOY_february_29 (ts : datetime) (doy : Time) :
  valid_datetime ts = true -> dt_year ts < MAXYEAR ->
  is_leap (dt_year ts) = false ->
  month doy = Some 2 -> day doy = Some 29 ->
  ruleLatentDOY ts doy =
  Ret (Some (Time_date
               (if (2 <? dt_month ts)
                   || ((2 =? dt_month ts) && (28 <=? dt_day ts))
                then dt_year ts + 1 else dt_year ts)
               2 28)).
Proof.
  intros Hv Hy Hleap Hmonth Hday.
  destruct (ruleLatentDOY_roll ts Hv Hy doy 2 29 Hmonth Hday
              ltac:(lia) ltac:(lia)) as [Hr _].
  rewrite Hr.
  assert (E : days_in_month (dt_year ts) 2 = 28).
  { rewrite days_in_month_alt, Hleap. reflexivity. }
  rewrite E. change (Z.min 28 29) with 28.
  rewrite dt_le_with_date.
  destruct ((2 <? dt_month ts) || ((2 =? dt_month ts) && (28 <=? dt_day ts))).
  - unfold roll_year. simpl.
    pose proof (days_in_month_bounds (dt_year ts + 1) 2 ltac:(lia)).
    rewrite Z.min_r by lia. reflexivity.
  - reflexivity.
Qed.

Lemma ruleLatentDOY_february_29_witness :
  ruleLatentDOY (mkdatetime 2023 6 1 9 0 0 0)
    (mkTime None (Some 2) (Some 29) None None None None)
  = Ret (Some (Time_date 2024 2 28)).
Proof.
  apply (ruleLatentDOY_february_29 (mkdatetime 2023 6 1 9 0 0 0)
           (mkTime None (Some 2) (Some 29) None None None None));
    reflexivity.
Defined.

(** ** Parts of day: [_podFromMatch] and [rulePOD] *)

Section PartOfDayFacts.

Variable lower : string -> string.
Variable strip : string -> string.

Lemma pod_tag_recognised (s : string) :
  pod_recognised s = true -> In (pod_tag s) pod_tags.
Proof.
  unfold pod_recognised, pod_tag, pod_tags.
  destruct (String.prefix "mor" s); [simpl; tauto|].
  destruct (contains "früh" s); [simpl; tauto|].
  destruct (String.prefix "early" s); [simpl; tauto|].
  destruct (String.prefix "after" s); [simpl; tauto|].
  destruct (String.prefix "nach" s); [simpl; tauto|].
  destruct (String.prefix "vor" s); [simpl; tauto|].
  destruct (String.eqb_spec s "noon") as [->|]; [simpl; tauto|].
  destruct (String.eqb_spec s "evening") as [->|]; [simpl; tauto|].
  destruct (String.eqb_spec s "night") as [->|]; [simpl; tauto|].
  destruct (String.prefix "mittag" s); [simpl; tauto|].
  destruct (String.prefix "abend" s); [simpl; tauto|].
  destruct (String.prefix "spät" s); [simpl; tauto|].
  destruct (String.prefix "late" s); [simpl; tauto|].
  destruct (String.prefix "nacht" s); [simpl; tauto|].
  simpl. discriminate.
Qed.

Lemma mod_tag_recognised (mod_ : option string) :
  mod_recognised lower strip mod_ = true ->
  In (mod_tag lower strip mod_) mod_tags.
Proof.
  unfold mod_recognised, mod_tag, mod_tags.
  destruct mod_ as [[|c s]|]; [simpl; tauto| |simpl; tauto].
  set (s' := lower (strip (String c s))).
  destruct (String.prefix "früh" s'); [simpl; tauto|].
  destruct (String.eqb s' "early"); [simpl; tauto|].
  destruct (String.prefix "spät" s'); [simpl; tauto|].
  destruct (String.eqb s' "late"); [simpl; tauto|].
  simpl. discriminate.
Qed.

Lemma tags_in_pod_hours (mo p : string) :
  In mo mod_tags -> In p pod_tags ->
  exists hours, dict_get pod_hours (mo ++ p) = Some hours.
Proof.
  unfold mod_tags, pod_tags. simpl.
  intros [<-|[<-|[<-|[]]]] [<-|[<-|[<-|[<-|[<-|[<-|[]]]]]]];
    eexists; reflexivity.
Qed.

(** X17.  When the lowered, stripped part of day passes one of the tests
    of [_podFromMatch] and the modifier is absent or passes one of its
    tests, the tag that [rulePOD] builds is a key of [pod_hours], and
    [ruleLatentPOD] grounds it without [KeyError], keeping the tag. *)
Theorem rulePOD_can_be_grounded (ts : datetime) (group_pod : string)
    (group_mod : option string) :
  valid_datetime ts = true -> dt_year ts < MAXYEAR ->
  pod_recognised (strip (lower group_pod)) = true ->
  mod_recognised lower strip group_mod = true ->
  exists p hours t,
    rulePOD lower strip ts group_pod group_mod = Ret (Some (Time_pod p)) /\
    dict_get pod_hours p = Some hours /\
    ruleLatentPOD ts (Time_pod p) = Ret (Some t) /\
    POD t = Some p.
Proof.
  intros Hv Hy Hp Hm.
  destruct (tags_in_pod_hours _ _ (mod_tag_recognised _ Hm)
              (pod_tag_recognised _ Hp)) as [hours Hh].
  exists (_podFromMatch lower strip group_pod group_mod), hours.
  destruct (ruleLatentPOD_roll ts Hv Hy
              (Time_pod (_podFromMatch lower strip group_pod group_mod))
              _ hours eq_refl Hh) as [Hr _].
  eexists. split; [reflexivity|]. split; [exact Hh|].
  split; [exact Hr|reflexivity].
Qed.

Lemma prefix_split (p s : string) :
  String.prefix p s = true -> exists r, s = (p ++ r)%string.
Proof.
  revert s. induction p as [|a p IH]; intros s Hp.
  - now exists s.
  - destruct s as [|b s]; simpl in Hp; [discriminate Hp|].
    destruct (ascii_dec a b) as [<-|]; [|discriminate Hp].
    destruct (IH s Hp) as [r ->]. now exists r.
Qed.

(** X18.  A part of day that starts with "nacht" is tagged 'afternoon'
    ('morning' if it contains "früh"), never 'night': the test for "nach"
    comes first.  [_buildWeekDay] gives a weekday with such a part of day
    the same tag. *)
Theorem podFromMatch_nacht_is_afternoon (pod : string)
    (mod_ : option string) (day_num : Z) :
  String.prefix "nacht" (strip (lower pod)) = true ->
  pod <> EmptyString ->
  _podFromMatch lower strip pod mod_ =
  (mod_tag lower strip mod_ ++
   (if contains "früh" (strip (lower pod)) then "morning"
    else "afternoon"))%string /\
  _buildWeekDay lower strip day_num (Some pod) =
  mkTime None None None None None (Some day_num)
    (Some (if contains "früh" (strip (lower pod)) then "morning"
           else "afternoon")%string).
Proof.
  intros Hp Hne.
  assert (Ht : pod_tag (strip (lower pod)) =
               (if contains "früh" (strip (lower pod)) then "morning"
                else "afternoon")%string).
  { destruct (prefix_split _ _ Hp) as [r Hr]. rewrite Hr.
    unfold pod_tag.
    change (String.prefix "mor" ("nacht" ++ r)) with false.
    change (String.prefix "early" ("nacht" ++ r)) with false.
    change (String.prefix "after" ("nacht" ++ r)) with false.
    replace (String.prefix "nach" ("nacht" ++ r)) with true by reflexivity.
    destruct (contains "früh" ("nacht" ++ r)); reflexivity. }
  split.
  - unfold _podFromMatch. now rewrite Ht.
  - unfold _buildWeekDay, _podFromMatch.
    destruct pod as [|c pod]; [contradiction|].
    rewrite Ht. reflexivity.
Qed.

End PartOfDayFacts.

Lemma rulePOD_can_be_grounded_witness :
  exists p hours t,
    rulePOD ascii_lower ascii_strip ts0 "After Noon" (Some "late "%string)
      = Ret (Some (Time_pod p)) /\
    dict_get pod_hours p = Some hours /\
    ruleLatentPOD ts0 (Time_pod p) = Ret (Some t) /\
    POD t = Some p.
Proof.
  apply (rulePOD_can_be_grounded ascii_lower ascii_strip ts0 "After Noon"
           (Some "late "%string)); reflexivity.
Defined.

Example podFromMatch_late_afternoon :
  _podFromMatch ascii_lower ascii_strip "After Noon" (Some "late "%string)
  = "lateafternoon"%string.
Proof. reflexivity. Qed.

Lemma podFromMatch_nacht_is_afternoon_witness :
  _podFromMatch ascii_lower ascii_strip "Nachts" None = "afternoon"%string /\
  _buildWeekDay ascii_lower ascii_strip 0 (Some "Nachts"%string) =
  mkTime None None None None None (Some 0) (Some "afternoon"%string).
Proof.
  apply (podFromMatch_nacht_is_afternoon ascii_lower ascii_strip "Nachts"
           None 0).
  - reflexivity.
  - discriminate.
Defined.

(** ** Time intervals, joins and years *)

Lemma radd_time (ts : datetime) (h mi : Z) :
  valid_datetime ts = true -> 0 <= h <= 23 -> 0 <= mi <= 59 ->
  radd ts (mkrelativedelta 0 0 0 None None None (Some h) (Some mi) None)
  = Ret (with_time ts h mi) /\
  valid_datetime (with_time ts h mi) = true.
Proof.
  intros Hv Hh Hmi.
  destruct (valid_fields ts Hv) as (Hy & Hm & Hd & _).
  destruct (radd_absolute ts Hv None None (Some h) (Some mi)
              ltac:(simpl; lia) ltac:(simpl; lia)
              ltac:(simpl; lia) ltac:(simpl; lia)) as [Hr Hvr].
  simpl py_or in Hr, Hvr. simpl default in Hr, Hvr.
  rewrite Z.min_r in Hr, Hvr by lia.
  assert (En : with_time (with_date ts (dt_year ts) (dt_month ts) (dt_day ts))
                 h mi = with_time ts h mi) by (destruct ts; reflexivity).
  rewrite En in Hr, Hvr. now split.
Qed.

(** X13.  [ruleLatentTimeInterval] puts both endpoints on one date: the
    date of [ts] when the left endpoint is later than [ts], and the next
    day otherwise, also when [ts] lies within the interval; hours and
    minutes are kept, a missing minute being 0. *)
Theorem ruleLatentTimeInterval_same_day (ts : datetime) (f t : Time)
    (hf ht : Z) :
  valid_datetime ts = true -> dt_year ts < MAXYEAR ->
  hour f = Some hf -> 0 <= hf <= 23 -> 0 <= py_or (minute f) 0 <= 59 ->
  hour t = Some ht -> 0 <= ht <= 23 -> 0 <= py_or (minute t) 0 <= 59 ->
  exists y m d,
    ruleLatentTimeInterval ts (mkInterval (Some f) (Some t)) =
    Done (Ret (Some (mkInterval
      (Some (mkTime (Some y) (Some m) (Some d) (Some hf)
                    (Some (py_or (minute f) 0)) None None))
      (Some (mkTime (Some y) (Some m) (Some d) (Some ht)
                    (Some (py_or (minute t) 0)) None None))))) /\
    (y, m, d) =
    (if dt_le (with_time ts hf (py_or (minute f) 0)) ts
     then next_day (dt_year ts) (dt_month ts) (dt_day ts)
     else (dt_year ts, dt_month ts, dt_day ts)).
Proof.
  intros Hv Hy Hhf Hf Hmf Hht Ht Hmt.
  destruct (radd_time ts hf _ Hv Hf Hmf) as [Hrf Hvf].
  destruct (radd_time ts ht _ Hv Ht Hmt) as [Hrt Hvt].
  pose proof (toordinal_before_last_year ts Hv Hy) as Hord.
  unfold ruleLatentTimeInterval. cbn [t_from t_to].
  rewrite Hhf, Hht, Hrf, Hrt. cbn [bind].
  destruct (dt_le (with_time ts hf (py_or (minute f) 0)) ts).
  - rewrite (radd_day1 _ Hvf) by (change (toordinal (with_time ts hf _))
                                    with (toordinal ts); lia).
    rewrite (radd_day1 _ Hvt) by (change (toordinal (with_time ts ht _))
                                    with (toordinal ts); lia).
    cbn [bind]. unfold roll_day, Time_of_datetime. simpl.
    destruct (next_day _ _ _) as [[y m] d].
    exists y, m, d. split; reflexivity.
  - cbn [bind]. eexists _, _, _. split; reflexivity.
Qed.

Lemma ruleLatentTimeInterval_same_day_witness :
  exists y m d,
    ruleLatentTimeInterval (march_10_2022 10 0 0 0)
      (mkInterval (Some (Time_tod (Some 9) (Some 0)))
                  (Some (Time_tod (Some 11) (Some 0)))) =
    Done (Ret (Some (mkInterval
      (Some (mkTime (Some y) (Some m) (Some d) (Some 9) (Some 0)
                    None None))
      (Some (mkTime (Some y) (Some m) (Some d) (Some 11) (Some 0)
                    None None))))) /\
    (y, m, d) = (2022, 3, 11).
Proof.
  apply (ruleLatentTimeInterval_same_day (march_10_2022 10 0 0 0)
           (Time_tod (Some 9) (Some 0)) (Time_tod (Some 11) (Some 0)) 9 11);
    try reflexivity; simpl; lia.
Defined.

Lemma ruleHHMM_shape (ts : datetime) (m : HHMMMatch) :
  all_digits (group_hour m) = true ->
  minute_group_ok (group_minute m) ->
  exists h mi, ruleHHMM ts m = Ret (Some (Time_tod (Some h) (Some mi))).
Proof.
  intros Hh Hm. destruct (py_int_digits _ Hh) as [h Eh].
  assert (Emi : exists mi,
             match group_minute m with
             | None => Ret 0
             | Some EmptyString => Ret 0
             | Some s => py_int s
             end = Ret mi).
  { destruct (group_minute m) as [s|]; [|now exists 0].
    destruct s as [|c s]; [now exists 0|].
    destruct Hm as [Hm|Hm]; [discriminate|].
    exact (py_int_digits _ Hm). }
  destruct Emi as [mi Emi].
  unfold ruleHHMM. rewrite Eh. cbn [bind]. rewrite Emi. cbn [bind].
  destruct (group_ampm m) as [ampm|]; [|now exists h, mi].
  destruct (String.prefix "a" ampm && (h <=? 12)); [now exists h, mi|].
  destruct (String.prefix "p" ampm && (h <=? 12));
    [now exists (h + 12), mi|now exists h, mi].
Qed.

(** X14.  Between two productions of [ruleHHMM], which always have their
    minute set, [ruleTODTOD] returns an interval exactly when the hour and
    minute on the left are strictly earlier than those on the right, and
    [None] otherwise. *)
Theorem join_HHMM_strict_order (ts : datetime) (m1 m2 : HHMMMatch) :
  all_digits (group_hour m1) = true -> minute_group_ok (group_minute m1) ->
  all_digits (group_hour m2) = true -> minute_group_ok (group_minute m2) ->
  exists h1 n1 h2 n2,
    ruleHHMM ts m1 = Ret (Some (Time_tod (Some h1) (Some n1))) /\
    ruleHHMM ts m2 = Ret (Some (Time_tod (Some h2) (Some n2))) /\
    join_HHMM ts m1 m2 =
    Ret (if lex_lt [h1; n1] [h2; n2]
         then Some (mkInterval (Some (Time_tod (Some h1) (Some n1)))
                               (Some (Time_tod (Some h2) (Some n2))))
         else None).
Proof.
  intros Hh1 Hm1 Hh2 Hm2.
  destruct (ruleHHMM_shape ts m1 Hh1 Hm1) as (h1 & n1 & E1).
  destruct (ruleHHMM_shape ts m2 Hh2 Hm2) as (h2 & n2 & E2).
  exists h1, n1, h2, n2. split; [exact E1|]. split; [exact E2|].
  unfold join_HHMM. rewrite E1, E2. cbn [bind].
  apply ruleTODTOD_minutes_set; reflexivity.
Qed.

Lemma join_HHMM_strict_order_witness :
  exists h1 n1 h2 n2,
    ruleHHMM ts0 match_6pm = Ret (Some (Time_tod (Some h1) (Some n1))) /\
    ruleHHMM ts0 match_5 = Ret (Some (Time_tod (Some h2) (Some n2))) /\
    join_HHMM ts0 match_6pm match_5 =
    Ret (if lex_lt [h1; n1] [h2; n2]
         then Some (mkInterval (Some (Time_tod (Some h1) (Some n1)))
                               (Some (Time_tod (Some h2) (Some n2))))
         else None).
Proof.
  apply (join_HHMM_strict_order ts0 match_6pm match_5);
    try reflexivity; exact I.
Defined.

(** X15.  On two date-times that [ruleDateTOD] builds from one date and
    two times of the same hour, one of them without minute,
    [ruleDateTimeDateTime] raises [TypeError]; it returns neither an
    interval nor [None]. *)
Theorem ruleDateTimeDateTime_missing_minute (ts : datetime)
    (date tod1 tod2 : Time) (y m d h : Z) :
  year date = Some y -> month date = Some m -> day date = Some d ->
  hour tod1 = Some h -> hour tod2 = Some h ->
  minute tod1 = None \/ minute tod2 = None ->
  exists d1 d2,
    ruleDateTOD ts date tod1 = Ret (Some d1) /\
    ruleDateTOD ts date tod2 = Ret (Some d2) /\
    ruleDateTimeDateTime ts d1 d2 = Raise TypeError.
Proof.
  intros Hy Hm Hd Hh1 Hh2 Hmin.
  eexists _, _. split; [reflexivity|]. split; [reflexivity|].
  unfold ruleDateTimeDateTime. cbn [year month day hour minute].
  rewrite Hy, Hm, Hd, Hh1, Hh2.
  cbn [py_gt py_eq and_then bind].
  replace (y >? y) with false by (symmetry; lia).
  replace (m >? m) with false by (symmetry; lia).
  replace (d >? d) with false by (symmetry; lia).
  replace (h >? h) with false by (symmetry; lia).
  rewrite !Z.eqb_refl. cbn [bind andb].
  destruct Hmin as [-> | ->]; [reflexivity|].
  destruct (minute tod1); reflexivity.
Qed.

Lemma ruleDateTimeDateTime_missing_minute_witness :
  exists d1 d2,
    ruleDateTOD ts0 (Time_date 2022 3 5) six = Ret (Some d1) /\
    ruleDateTOD ts0 (Time_date 2022 3 5) half_past_six = Ret (Some d2) /\
    ruleDateTimeDateTime ts0 d1 d2 = Raise TypeError.
Proof.
  apply (ruleDateTimeDateTime_missing_minute ts0 (Time_date 2022 3 5)
           six half_past_six 2022 3 5 6); try reflexivity.
  left. reflexivity.
Defined.

Lemma int_digits_nonneg (s : string) (acc v : Z) :
  0 <= acc -> int_digits acc s = Some v -> 0 <= v.
Proof.
  revert acc. induction s as [|c s IH]; intros acc Hacc; cbn [int_digits].
  - intros [= <-]. exact Hacc.
  - unfold digit_of.
    destruct ((48 <=? Z.of_nat (nat_of_ascii c))
              && (Z.of_nat (nat_of_ascii c) <=? 57)) eqn:E; [|discriminate].
    apply andb_true_iff in E. destruct E as [E1 E2].
    apply Z.leb_le in E1. apply IH. lia.
Qed.

Lemma py_int_nonneg (s : string) (v : Z) : py_int s = Ret v -> 0 <= v.
Proof.
  unfold py_int. destruct s as [|c s]; [discriminate|].
  destruct (int_digits 0 (String c s)) as [v'|] eqn:E; [|discriminate].
  intros [= <-]. apply (int_digits_nonneg _ 0 v' ltac:(lia) E).
Qed.

(** X16.  [ruleYear] adds 2000 to a year below 1900 and [ruleDDMMYYYY] to
    a year below 2000: [ruleYear] never returns a year before 1900 and
    [ruleDDMMYYYY] none before 2000, and on the years 1900 to 1999 the two
    disagree by 2000. *)
Theorem year_rules_thresholds (ts : datetime) (m : DDMMYYYYMatch)
    (v mo d : Z) :
  py_int (group_year m) = Ret v ->
  py_int (group_month m) = Ret mo ->
  py_int (group_day m) = Ret d ->
  exists y1 y2,
    ruleYear ts (group_year m) =
      Ret (Some (mkTime (Some y1) None None None None None None)) /\
    ruleDDMMYYYY ts m = Ret (Some (Time_date y2 mo d)) /\
    1900 <= y1 /\ 2000 <= y2 /\
    (v < 1900 -> y1 = v + 2000 /\ y2 = v + 2000) /\
    (1900 <= v < 2000 -> y1 = v /\ y2 = v + 2000) /\
    (2000 <= v -> y1 = v /\ y2 = v).
Proof.
  intros Ev Emo Ed. pose proof (py_int_nonneg _ _ Ev) as Hv.
  unfold ruleYear, ruleDDMMYYYY. rewrite Ev, Emo, Ed. cbn [bind].
  eexists _, _. split; [reflexivity|]. split; [reflexivity|].
  destruct (Z.ltb_spec v 1900), (Z.ltb_spec v 2000); repeat split; lia.
Qed.

Lemma year_rules_thresholds_witness :
  exists y1 y2,
    ruleYear ts0 "1999" =
      Ret (Some (mkTime (Some y1) None None None None None None)) /\
    ruleDDMMYYYY ts0 (mkDDMMYYYYMatch "31" "12" "1999")
      = Ret (Some (Time_date y2 12 31)) /\
    1900 <= y1 /\ 2000 <= y2 /\
    (1999 < 1900 -> y1 = 1999 + 2000 /\ y2 = 1999 + 2000) /\
    (1900 <= 1999 < 2000 -> y1 = 1999 /\ y2 = 1999 + 2000) /\
    (2000 <= 1999 -> y1 = 1999 /\ y2 = 1999).
Proof.
  apply (year_rules_thresholds ts0 (mkDDMMYYYYMatch "31" "12" "1999")
           1999 12 31); reflexivity.
Defined.

(** ** More on the scorer *)

#[global] Instance R_PyFloatLogDomain : PyFloatLogDomain R.
Proof.
  split. intros a b Ha Hb. simpl. unfold R_flog_dom.
  destruct (Rlt_dec 0 (IZR a / IZR b)) as [Hpos|]; [|reflexivity].
  exfalso. apply (Rlt_irrefl 0).
  apply (Rlt_le_trans _ _ _ Hpos).
  unfold Rdiv. rewrite <- (Rmult_0_l (/ IZR b)).
  apply Rmult_le_compat_r.
  - left. apply Rinv_0_lt_compat. now apply IZR_lt.
  - now apply IZR_le.
Qed.

(** X19.  [score] raises [IndexError] on a partial parse without
    productions, [ZeroDivisionError] on an empty text and [ValueError]
    when the last production does not end after the start of the first;
    [score_final] raises [ZeroDivisionError] on an empty text and
    [ValueError] on a final production of length 0 or less. *)
Theorem score_raises {F : Type} `{PyFloatLogDomain F}
    (RuleId : Type) (str : RuleId -> string)
    (predict_log_proba : list string -> F * F)
    (txt : string) (ts : datetime) (pp : PartialParse RuleId)
    (len_prod : Z) :
  (prod pp = [] ->
   score str predict_log_proba txt ts pp = Raise IndexError) /\
  (prod pp <> [] -> txt = EmptyString ->
   score str predict_log_proba txt ts pp = Raise ZeroDivisionError) /\
  (forall first last,
     getitem_first (prod pp) = Ret first ->
     getitem_last (prod pp) = Ret last ->
     txt <> EmptyString -> mend last - mstart first <= 0 ->
     score str predict_log_proba txt ts pp = Raise ValueError) /\
  (txt = EmptyString ->
   score_final str predict_log_proba txt ts pp len_prod
   = Raise ZeroDivisionError) /\
  (txt <> EmptyString -> len_prod <= 0 ->
   score_final str predict_log_proba txt ts pp len_prod = Raise ValueError).
Proof.
  assert (Hlen : txt <> EmptyString -> 0 < len txt).
  { destruct txt; [contradiction|]. intros _. unfold len. simpl. lia. }
  split; [|split; [|split; [|split]]].
  - intros E. unfold score. rewrite E. reflexivity.
  - intros Hne ->. unfold score, getitem_last, getitem_first.
    destruct (prod pp) as [|p l] eqn:E; [contradiction|].
    destruct (rev (p :: l)) as [|q r] eqn:Er.
    { apply (f_equal (@List.length _)) in Er. rewrite length_rev in Er.
      discriminate. }
    reflexivity.
  - intros first last Hf Hl Hne Hc. specialize (Hlen Hne).
    unfold score, py_truediv, math_log. rewrite Hl, Hf. cbn [bind].
    destruct (Z.eqb_spec (len txt) 0) as [E|_]; [lia|]. cbn [bind].
    rewrite truediv_nonpos by assumption. reflexivity.
  - intros ->. reflexivity.
  - intros Hne Hc. specialize (Hlen Hne).
    unfold score_final, py_truediv, math_log.
    destruct (Z.eqb_spec (len txt) 0) as [E|_]; [lia|]. cbn [bind].
    rewrite truediv_nonpos by assumption. reflexivity.
Qed.

Lemma score_raises_witness :
  score (fun r => r) example_model example_txt ts0
    (mkPartialParse [mkProduction 4 4] ["ruleX"%string])
  = Raise ValueError.
Proof.
  destruct (score_raises string (fun r => r) example_model example_txt ts0
              (mkPartialParse [mkProduction 4 4] ["ruleX"%string]) 0)
    as (_ & _ & Hv & _).
  apply (Hv (mkProduction 4 4) (mkProduction 4 4));
    try reflexivity; discriminate.
Defined.

(** X20.  [score] depends on the productions only through the start of
    the first and the end of the last: two partial parses with the same
    rules and the same outer span have the same score, whatever lies
    between, and whatever the reference timestamp. *)
Theorem score_of_the_outer_span {F : Type} `{PyFloat F}
    (RuleId : Type) (str : RuleId -> string)
    (predict_log_proba : list string -> F * F)
    (txt : string) (ts ts' : datetime) (pp1 pp2 : PartialParse RuleId)
    (first1 last1 first2 last2 : Production) :
  rules pp1 = rules pp2 ->
  getitem_first (prod pp1) = Ret first1 ->
  getitem_last (prod pp1) = Ret last1 ->
  getitem_first (prod pp2) = Ret first2 ->
  getitem_last (prod pp2) = Ret last2 ->
  mstart first1 = mstart first2 -> mend last1 = mend last2 ->
  score str predict_log_proba txt ts pp1 =
  score str predict_log_proba txt ts' pp2.
Proof.
  intros Hr Hf1 Hl1 Hf2 Hl2 Hs He. unfold score, _feature_extractor.
  rewrite Hl1, Hf1, Hl2, Hf2. cbn [bind]. rewrite Hr, Hs, He. reflexivity.
Qed.

Lemma score_of_the_outer_span_witness :
  score (fun r => r) example_model example_txt ts0
    (mkPartialParse [mkProduction 0 2; mkProduction 3 9]
       ["ruleDOW"%string])
  = score (fun r => r) example_model example_txt (march_10_2022 9 30 0 0)
      example_pp2.
Proof.
  apply (score_of_the_outer_span string (fun r => r) example_model
           example_txt ts0 (march_10_2022 9 30 0 0)
           (mkPartialParse [mkProduction 0 2; mkProduction 3 9]
              ["ruleDOW"%string])
           example_pp2 (mkProduction 0 2) (mkProduction 3 9)
           (mkProduction 0 9) (mkProduction 0 9)); reflexivity.
Defined.
